(** * md-to-pdf-converter: the HTML line transducer and the batch drivers

    A shallow embedding of [md_to_pdf_converter_windows.py] (the
    element-stream pipeline, called Pipeline B in the specification) and of
    the [main] function of [md_to_pdf_converter.py] (Pipeline A).

    Python strings are sequences of Unicode code points; they are modelled
    as lists of code points ([N]).  The external libraries (markdown2,
    reportlab, weasyprint, the file system) are parameters of the model. *)

From Stdlib Require Import Strings.String Strings.Ascii.
From Stdlib Require Import NArith ZArith Lia.
From Stdlib Require DecimalString.
From stdpp Require Import base list.

Local Open Scope N_scope.

(** ** Python strings *)

Module PyStr.

(** A Python [str]: a list of code points. *)
Abbreviation str := (list N).

(** The code points of an ASCII literal of the source. *)
Definition py (s : string) : str :=
  map N_of_ascii (list_ascii_of_string s).

(** Truth value of a string or of a list: non-empty. *)
Definition truthy {A} (l : list A) : bool :=
  match l with [] => false | _ :: _ => true end.

(** [str.isspace] on one code point (CPython's [_PyUnicode_IsWhitespace]). *)
Definition isspace (c : N) : bool :=
  ((9 <=? c) && (c <=? 13)) || ((28 <=? c) && (c <=? 32))
  || (c =? 133) || (c =? 160) || (c =? 5760)
  || ((8192 <=? c) && (c <=? 8202))
  || (c =? 8232) || (c =? 8233) || (c =? 8239) || (c =? 8287)
  || (c =? 12288).

Fixpoint lstrip (s : str) : str :=
  match s with
  | [] => []
  | c :: s' => if isspace c then lstrip s' else s
  end.

Definition rstrip (s : str) : str := reverse (lstrip (reverse s)).

(** [s.strip()] *)
Definition strip (s : str) : str := rstrip (lstrip s).

(** [s.startswith(p)] *)
Fixpoint startswith (s p : str) : bool :=
  match p, s with
  | [], _ => true
  | _ :: _, [] => false
  | a :: p', c :: s' => (c =? a) && startswith s' p'
  end.

(** [s.endswith(p)] *)
Definition endswith (s p : str) : bool :=
  startswith (reverse s) (reverse p).

(** [sep.join(parts)] *)
Fixpoint join (sep : str) (parts : list str) : str :=
  match parts with
  | [] => []
  | [x] => x
  | x :: rest => x ++ sep ++ join sep rest
  end.

(** [s.split(c)] for a one-character separator: the current piece is
    accumulated in [cur]. *)
Fixpoint split_from (c : N) (cur : str) (s : str) : list str :=
  match s with
  | [] => [cur]
  | x :: s' => if x =? c then cur :: split_from c [] s'
               else split_from c (cur ++ [x]) s'
  end.

Definition split (c : N) (s : str) : list str := split_from c [] s.

Definition LT : N := 60.       (* '<' *)
Definition GT : N := 62.       (* '>' *)
Definition NL : N := 10.       (* '\n' *)

End PyStr.
Import PyStr.

(** ** The two regular expressions of the source *)

Module Re.

(** The lazy [.*?] of ['<.*?>'] after a ['<']: the number of characters
    (none of them a newline, which [.] does not match) before the first
    ['>'], if there is one. *)
Fixpoint lazy_until_gt (s : str) : option nat :=
  match s with
  | [] => None
  | c :: s' =>
      if c =? GT then Some 0%nat
      else if c =? NL then None
      else option_map S (lazy_until_gt s')
  end.

(** [re.sub('<.*?>', '', text)]: scan from the left; [skip] counts the
    characters of the current match that are still to be dropped. *)
Fixpoint sub_tags (skip : nat) (s : str) : str :=
  match s with
  | [] => []
  | c :: s' =>
      match skip with
      | S k => sub_tags k s'
      | O =>
          if c =? LT then
            match lazy_until_gt s' with
            | Some n => sub_tags (S n) s'
            | None => c :: sub_tags 0 s'
            end
          else c :: sub_tags 0 s'
      end
  end.

Definition is_cell_open (s : str) : bool :=
  startswith s (py "<th>") || startswith s (py "<td>").

Definition is_cell_close (s : str) : bool :=
  startswith s (py "</th>") || startswith s (py "</td>").

(** The group [(.*?)] of ['<t[hd]>(.*?)</t[hd]>'] after the opening tag:
    the shortest newline-free text followed by [</th>] or [</td>]. *)
Fixpoint lazy_until_cell_close (s : str) : option str :=
  if is_cell_close s then Some []
  else match s with
       | [] => None
       | c :: s' =>
           if c =? NL then None
           else option_map (cons c) (lazy_until_cell_close s')
       end.

(** [re.findall(r'<t[hd]>(.*?)</t[hd]>', s)]: the groups of the
    non-overlapping matches, from the left. *)
Fixpoint findall_from (skip : nat) (s : str) : list str :=
  match s with
  | [] => []
  | _ :: s' =>
      match skip with
      | S k => findall_from k s'
      | O =>
          if is_cell_open s then
            match lazy_until_cell_close (drop 4 s) with
            | Some cell => cell :: findall_from (8 + length cell) s'
            | None => findall_from 0 s'
            end
          else findall_from 0 s'
      end
  end.

Definition findall_cells (s : str) : list str := findall_from 0 s.

End Re.

(** ** The reportlab objects of Pipeline B *)

Module Reportlab.

(** The paragraph styles the transducer uses ([self.styles[...]]). *)
Inductive style :=
| Normal
| CustomHeading (n : nat)
| CustomCode
| CustomQuote.

(** The flowables the transducer builds.  The fixed [TableStyle] of a
    table is not part of the model. *)
Inductive flowable :=
| Paragraph (text : str) (st : style)
| Preformatted (text : str) (st : style)
| Table (data : list (list str))
| Spacer (width height : Z).

(** [Paragraph(text, style)] parses the markup of its text when it is
    built and raises [ValueError] when it cannot; [paragraph_parses] is
    that test, a part of reportlab.  The other three constructors keep
    their arguments as they are.  [builds] says whether the constructor
    of an element returns. *)
Definition builds (paragraph_parses : str -> bool) (e : flowable) : bool :=
  match e with
  | Paragraph text _ => paragraph_parses text
  | Preformatted _ _ | Table _ | Spacer _ _ => true
  end.




End Reportlab.
Export Reportlab.

(** ** The host: file system, libraries, standard output *)

Module Host.

(** The outcome of [open(...).read()]. *)
Inductive read_result :=
| ReadOk (content : str)
| ReadNotFound          (* FileNotFoundError *)
| ReadError.            (* any other exception *)

(** What the scripts call and do not define.  [World] is the state of the
    file system; the two rendering calls return whether they returned
    normally ([true]) or raised ([false]) and the world they leave.  The
    Markdown-to-HTML conversion is taken to return on every input.
    [paragraph_parses] is the test of reportlab's [Paragraph] constructor
    on its text: [false] when it raises [ValueError]. *)
Class Platform := {
  World : Type;
  paragraph_parses : str -> bool;
  os_path_exists : World -> str -> bool;
  str_lower : str -> str;
  open_read : World -> str -> read_result;
  markdown2_markdown : str -> str;
  with_suffix_pdf : str -> str;          (* Path(f).with_suffix('.pdf') *)
  path_stem : str -> str;                (* Path(f).stem *)
  (* the document shell around the HTML, then HTML(...).write_pdf *)
  write_pdf : str -> str -> str -> World -> bool * World;
  (* SimpleDocTemplate(output_file, ...).build(elements) *)
  doc_build : str -> list flowable -> World -> bool * World;
}.

(** The lines the scripts print. *)
Inductive message :=
| MsgConflict            (* Error: Cannot specify output filename with multiple input files. *)
| MsgMissing (f : str)   (* Warning: File '{f}' does not exist. Skipping. *)
| MsgNotMarkdown (f : str) (* Warning: '{f}' doesn't appear to be a markdown file. Skipping. *)
| MsgNotFound (f : str)  (* Error: File '{f}' not found. *)
| MsgReadError (f : str) (* Error reading '{f}': {e} *)
| MsgConverted (f out : str) (* Successfully converted '{f}' to '{out}' *)
| MsgConvertError (f : str)  (* Error converting '{f}' to PDF: {e} *)
| MsgSummary (success_count total_count : nat).
                         (* Conversion complete: {x}/{y} files processed successfully. *)

(** The parsed command line: [nargs='+'] input files and [-o/--output]. *)
Record Args := { input_files : list str; output : option str }.

(** Truth value of [args.output]: neither [None] nor the empty string. *)
Definition output_truthy (o : option str) : bool :=
  match o with Some (_ :: _) => true | _ => false end.

(** [f.lower().endswith(('.md', '.markdown'))] *)
Definition markdown_name `{Platform} (f : str) : bool :=
  endswith (str_lower f) (py ".md") || endswith (str_lower f) (py ".markdown").

(** What a run of [main] leaves: the printed lines, the exit status and
    the world. *)
Record Outcome `{Platform} := {
  stdout : list message;
  exit_code : Z;
  world : World;
}.

End Host.
Export Host.

(** ** Pipeline A: [md_to_pdf_converter.py] *)

Module PipelineA.
Section WithPlatform.
Context `{Platform}.

(** [convert_markdown_to_pdf]: the result, the lines printed, the world. *)
Definition convert_markdown_to_pdf (markdown_file : str)
    (output_file : option str) (w : World) : bool * list message * World :=
  match open_read w markdown_file with
  | ReadNotFound => (false, [MsgNotFound markdown_file], w)
  | ReadError => (false, [MsgReadError markdown_file], w)
  | ReadOk markdown_content =>
      let html_content := markdown2_markdown markdown_content in
      let output_file :=
        match output_file with
        | None => with_suffix_pdf markdown_file
        | Some o => o
        end in
      let '(ok, w') :=
        write_pdf (path_stem markdown_file) html_content output_file w in
      if ok then (true, [MsgConverted markdown_file output_file], w')
      else (false, [MsgConvertError markdown_file], w')
  end.

(** The [for markdown_file in args.input_files] loop of [main]. *)
Fixpoint for_files (files : list str) (args_output : option str)
    (success_count : nat) (out : list message) (w : World)
  : nat * list message * World :=
  match files with
  | [] => (success_count, out, w)
  | markdown_file :: files' =>
      if negb (os_path_exists w markdown_file) then
        for_files files' args_output success_count
          (out ++ [MsgMissing markdown_file]) w
      else if negb (markdown_name markdown_file) then
        for_files files' args_output success_count
          (out ++ [MsgNotMarkdown markdown_file]) w
      else
        let output_file :=
          if output_truthy args_output then args_output else None in
        let '(ok, printed, w') :=
          convert_markdown_to_pdf markdown_file output_file w in
        for_files files' args_output
          (if ok then S success_count else success_count)
          (out ++ printed) w'
  end.

(** [main] after [parser.parse_args()]. *)
Definition main (args : Args) (w : World) : Outcome :=
  if (1 <? length (input_files args))%nat && output_truthy (output args) then
    {| stdout := [MsgConflict]; exit_code := 1; world := w |}
  else
    let success_count := 0%nat in
    let total_count := length (input_files args) in
    let '(success_count, out, w') :=
      for_files (input_files args) (output args) success_count [] w in
    let out := out ++ [MsgSummary success_count total_count] in
    if (success_count =? 0)%nat then
      {| stdout := out; exit_code := 1; world := w' |}
    else
      {| stdout := out; exit_code := 0; world := w' |}.

End WithPlatform.
End PipelineA.

(** ** Pipeline B: [md_to_pdf_converter_windows.py] *)

Module PipelineB.

(** [clean_html_tags] *)
Definition clean_html_tags (text : str) : str := Re.sub_tags 0 text.

Definition CODE_OPEN := py "<pre><code>".
Definition CODE_CLOSE := py "</code></pre>".
Definition QUOTE_OPEN := py "<blockquote>".
Definition QUOTE_CLOSE := py "</blockquote>".
Definition TABLE_OPEN := py "<table>".
Definition TABLE_CLOSE := py "</table>".
Definition ROW_OPEN := py "<tr>".

(** The bullet prefix of list items, as the source file has it:
    U+00E2 U+20AC U+00A2 and a space. *)
Definition BULLET : str := [226; 8364; 162; 32].

(** [while i < len(lines) and not lines[i].strip().endswith('</code></pre>')]:
    [rest] is [lines[i:]]. *)
Fixpoint code_while (rest : list str) (i : nat) (code_lines : list str)
  : list str * nat :=
  match rest with
  | [] => (code_lines, i)
  | l :: rest' =>
      if endswith (strip l) CODE_CLOSE then (code_lines, i)
      else code_while rest' (S i) (code_lines ++ [l])
  end.

(** [while i < len(lines) and not lines[i].strip().endswith('</blockquote>')] *)
Fixpoint quote_while (rest : list str) (i : nat) (quote_lines : list str)
  : list str * nat :=
  match rest with
  | [] => (quote_lines, i)
  | l :: rest' =>
      if endswith (strip l) QUOTE_CLOSE then (quote_lines, i)
      else quote_while rest' (S i) (quote_lines ++ [clean_html_tags l])
  end.

(** The body of the table loop for one line: the new [table_data]. *)
Definition table_line (l : str) (table_data : list (list str))
  : list (list str) :=
  let row_line := strip l in
  if startswith row_line ROW_OPEN then
    let cells := Re.findall_cells row_line in
    let row_data := map clean_html_tags cells in
    if truthy row_data then table_data ++ [row_data] else table_data
  else table_data.

(** [while i < len(lines) and not lines[i].strip().startswith('</table>')] *)
Fixpoint table_while (rest : list str) (i : nat)
    (table_data : list (list str)) : list (list str) * nat :=
  match rest with
  | [] => (table_data, i)
  | l :: rest' =>
      if startswith (strip l) TABLE_CLOSE then (table_data, i)
      else table_while rest' (S i) (table_line l table_data)
  end.

(** One iteration of the outer [while], entered with [lines[i] = raw]: the
    elements it has reportlab build and appends, in order, and the value
    of [i] at the end of the iteration.  Whether the constructors return
    is decided in [parse_loop_raising]. *)
Definition loop_body (lines : list str) (i : nat) (raw : str)
  : list flowable * nat :=
  let line := strip raw in
  if negb (truthy line) then ([], S i)
  else if startswith line (py "<h1>") then
    ([Paragraph (clean_html_tags line) (CustomHeading 1); Spacer 1 12], S i)
  else if startswith line (py "<h2>") then
    ([Paragraph (clean_html_tags line) (CustomHeading 2); Spacer 1 10], S i)
  else if startswith line (py "<h3>") then
    ([Paragraph (clean_html_tags line) (CustomHeading 3); Spacer 1 8], S i)
  else if startswith line (py "<h4>") then
    ([Paragraph (clean_html_tags line) (CustomHeading 4); Spacer 1 6], S i)
  else if startswith line (py "<h5>") then
    ([Paragraph (clean_html_tags line) (CustomHeading 5); Spacer 1 4], S i)
  else if startswith line (py "<h6>") then
    ([Paragraph (clean_html_tags line) (CustomHeading 6); Spacer 1 4], S i)
  else if startswith line CODE_OPEN then
    if endswith line CODE_CLOSE then
      ([Preformatted (clean_html_tags line) CustomCode; Spacer 1 12], S i)
    else
      let code_lines := [clean_html_tags line] in
      let i := S i in
      let '(code_lines, i) := code_while (drop i lines) i code_lines in
      let code_lines :=
        match lines !! i with
        | Some l => code_lines ++ [clean_html_tags l]
        | None => code_lines
        end in
      ([Preformatted (join [NL] code_lines) CustomCode; Spacer 1 12], S i)
  else if startswith line QUOTE_OPEN then
    if endswith line QUOTE_CLOSE then
      ([Paragraph (clean_html_tags line) CustomQuote; Spacer 1 12], S i)
    else
      let quote_lines := [clean_html_tags line] in
      let i := S i in
      let '(quote_lines, i) := quote_while (drop i lines) i quote_lines in
      let quote_lines :=
        match lines !! i with
        | Some l => quote_lines ++ [clean_html_tags l]
        | None => quote_lines
        end in
      ([Paragraph (join (py " ") quote_lines) CustomQuote; Spacer 1 12], S i)
  else if startswith line TABLE_OPEN then
    let i := S i in
    let '(table_data, i) := table_while (drop i lines) i [] in
    if truthy table_data then ([Table table_data; Spacer 1 12], S i)
    else ([], S i)
  else if startswith line (py "<p>") then
    let text := clean_html_tags line in
    if truthy (strip text) then ([Paragraph text Normal; Spacer 1 6], S i)
    else ([], S i)
  else if startswith line (py "<li>") then
    let text := clean_html_tags line in
    ([Paragraph (BULLET ++ text) Normal; Spacer 1 3], S i)
  else
    let text := clean_html_tags line in
    if truthy (strip text) then ([Paragraph text Normal; Spacer 1 6], S i)
    else ([], S i).

(** The outer [while i < len(lines)] as long as every constructor
    returns: every unit of [fuel] pays for one iteration; [None] means
    the fuel ran out before the loop ended. *)
Fixpoint parse_loop (fuel : nat) (lines : list str) (i : nat)
    (elements : list flowable) : option (list flowable) :=
  match lines !! i with
  | None => Some elements
  | Some raw =>
      match fuel with
      | O => None
      | S fuel' =>
          let '(new, i') := loop_body lines i raw in
          parse_loop fuel' lines i' (elements ++ new)
      end
  end.

(** The transducer on an HTML line sequence, with one unit of fuel per
    line. *)
Definition parse_lines (lines : list str) : option (list flowable) :=
  parse_loop (length lines) lines 0 [].

(** How the scan of the source ends: with the elements, or with the
    [ValueError] of a [Paragraph] constructor. *)
Inductive scan :=
| Returned (elements : list flowable)
| ValueError.

(** The outer [while i < len(lines)] of the source.  An iteration builds
    its elements before it appends them; when a constructor raises, the
    exception leaves the function and the elements collected so far are
    lost.  Fuel as in [parse_loop]. *)
Fixpoint parse_loop_raising (paragraph_parses : str -> bool) (fuel : nat)
    (lines : list str) (i : nat) (elements : list flowable) : option scan :=
  match lines !! i with
  | None => Some (Returned elements)
  | Some raw =>
      match fuel with
      | O => None
      | S fuel' =>
          let '(new, i') := loop_body lines i raw in
          if forallb (builds paragraph_parses) new then
            parse_loop_raising paragraph_parses fuel' lines i'
              (elements ++ new)
          else Some ValueError
      end
  end.

Definition parse_lines_raising (paragraph_parses : str -> bool)
    (lines : list str) : option scan :=
  parse_loop_raising paragraph_parses (length lines) lines 0 [].

(** [parse_markdown_to_elements]; [markdown2_markdown] is the external
    Markdown-to-HTML conversion with the four extras of the source. *)
Definition parse_markdown_to_elements (paragraph_parses : str -> bool)
    (markdown2_markdown : str -> str) (markdown_content : str)
  : option scan :=
  let html_content := markdown2_markdown markdown_content in
  let lines := split NL html_content in
  parse_lines_raising paragraph_parses lines.

Section WithPlatform.
Context `{Platform}.

(** [MarkdownToPDFConverter.convert_markdown_to_pdf].  A [ValueError] of
    the transducer is caught by the [except] of the [try] block, before
    the layout call.  The scan never runs out of fuel, so its [None] is
    given the failure outcome only to make the match complete. *)
Definition convert_markdown_to_pdf (markdown_file : str)
    (output_file : option str) (w : World) : bool * list message * World :=
  match open_read w markdown_file with
  | ReadNotFound => (false, [MsgNotFound markdown_file], w)
  | ReadError => (false, [MsgReadError markdown_file], w)
  | ReadOk markdown_content =>
      let output_file :=
        match output_file with
        | None => with_suffix_pdf markdown_file
        | Some o => o
        end in
      match parse_markdown_to_elements paragraph_parses markdown2_markdown
              markdown_content with
      | Some (Returned elements) =>
          let '(ok, w') := doc_build output_file elements w in
          if ok then (true, [MsgConverted markdown_file output_file], w')
          else (false, [MsgConvertError markdown_file], w')
      | Some ValueError => (false, [MsgConvertError markdown_file], w)
      | None => (false, [MsgConvertError markdown_file], w)
      end
  end.

(** The [for markdown_file in args.input_files] loop of [main]. *)
Fixpoint for_files (files : list str) (args_output : option str)
    (success_count : nat) (out : list message) (w : World)
  : nat * list message * World :=
  match files with
  | [] => (success_count, out, w)
  | markdown_file :: files' =>
      if negb (os_path_exists w markdown_file) then
        for_files files' args_output success_count
          (out ++ [MsgMissing markdown_file]) w
      else if negb (markdown_name markdown_file) then
        for_files files' args_output success_count
          (out ++ [MsgNotMarkdown markdown_file]) w
      else
        let output_file :=
          if output_truthy args_output then args_output else None in
        let '(ok, printed, w') :=
          convert_markdown_to_pdf markdown_file output_file w in
        for_files files' args_output
          (if ok then S success_count else success_count)
          (out ++ printed) w'
  end.

(** [main] after [parser.parse_args()]. *)
Definition main (args : Args) (w : World) : Outcome :=
  if (1 <? length (input_files args))%nat && output_truthy (output args) then
    {| stdout := [MsgConflict]; exit_code := 1; world := w |}
  else
    let success_count := 0%nat in
    let total_count := length (input_files args) in
    let '(success_count, out, w') :=
      for_files (input_files args) (output args) success_count [] w in
    let out := out ++ [MsgSummary success_count total_count] in
    if (success_count =? 0)%nat then
      {| stdout := out; exit_code := 1; world := w' |}
    else
      {| stdout := out; exit_code := 0; world := w' |}.

End WithPlatform.

End PipelineB.

(** ** A small concrete host, to run the drivers on examples *)

Module ToyHost.

(** ASCII lower-casing stands for [str.lower]. *)
Definition lower_char (c : N) : N :=
  if (65 <=? c) && (c <=? 90) then c + 32 else c.

(** The path without its last suffix. *)
Fixpoint after_dot (r : str) : option str :=
  match r with
  | [] => None
  | c :: r' => if c =? 46 then Some r' else after_dot r'
  end.

Definition drop_suffix (f : str) : str :=
  match after_dot (reverse f) with
  | Some r => reverse r
  | None => f
  end.

(** Stands for the parser of [Paragraph] on the examples: a text is
    refused when a [<] in it is followed by a letter, a tag that is
    opened and, the complete tags being gone, never closed. *)
Definition is_letter (c : N) : bool :=
  ((65 <=? c) && (c <=? 90)) || ((97 <=? c) && (c <=? 122)).

Fixpoint opens_tag (text : str) : bool :=
  match text with
  | c :: (d :: _) as rest => ((c =? LT) && is_letter d) || opens_tag rest
  | _ => false
  end.

Definition paragraph_text_parses (text : str) : bool := negb (opens_tag text).

(** The world is the list of the paths that exist; every file reads as
    empty, and both renderers succeed and create the output path. *)
#[export] Instance toy : Platform := {|
  World := list str;
  paragraph_parses := paragraph_text_parses;
  os_path_exists w f := bool_decide (f ∈ w);
  str_lower := map lower_char;
  open_read w f := if bool_decide (f ∈ w) then ReadOk [] else ReadNotFound;
  markdown2_markdown md := md;
  with_suffix_pdf f := drop_suffix f ++ py ".pdf";
  path_stem f := drop_suffix f;
  write_pdf _ _ out w := (true, out :: w);
  doc_build out _ w := (true, out :: w);
|}.

(** The same host, on which every file reads as [content]. *)
Definition reading (content : str) : Platform := {|
  World := list str;
  paragraph_parses := paragraph_text_parses;
  os_path_exists w f := bool_decide (f ∈ w);
  str_lower := map lower_char;
  open_read w f :=
    if bool_decide (f ∈ w) then ReadOk content else ReadNotFound;
  markdown2_markdown md := md;
  with_suffix_pdf f := drop_suffix f ++ py ".pdf";
  path_stem f := drop_suffix f;
  write_pdf _ _ out w := (true, out :: w);
  doc_build out _ w := (true, out :: w);
|}.

(** A batch of two Markdown files and a text file, all present. *)
Definition some_files : list str := [py "a.md"; py "notes.txt"; py "B.MD"].

End ToyHost.

(** * The vocabulary of the properties *)

Import PipelineB.

Section Vocabulary.
Local Open Scope nat_scope.

Definition closes_quote (l : str) : bool := endswith (strip l) QUOTE_CLOSE.







(** The opening tag of level [n]: [<h1>] ... [<h6>]. *)
Definition heading_tag (n : nat) : str :=
  py "<h" ++ [N.of_nat (48 + n)] ++ py ">".

(** The height of the Spacer the branch of level [n] appends. *)
Definition heading_spacer (n : nat) : Z :=
  match n with
  | 1 => 12 | 2 => 10 | 3 => 8 | 4 => 6 | 5 => 4 | 6 => 4
  | _ => 0
  end.

End Vocabulary.

Section DriverVocabulary.
Context `{Platform}.
Local Open Scope nat_scope.

(** The test of [main] on [--output] with several input files. *)
Definition conflict (args : Args) : bool :=
  (1 <? length (input_files args)) && output_truthy (output args).

(** A file the pre-check of the loop skips in the world [w]. *)
Definition skipped (w : World) (f : str) : bool :=
  negb (os_path_exists w f) || negb (markdown_name f).

(** The [Y] of the summary line, if the run ends with one. *)
Definition denominator (o : Outcome) : option nat :=
  match last (stdout o) with
  | Some (MsgSummary _ y) => Some y
  | _ => None
  end.

(** The conversions of a batch, as the specification speaks of them:
    the input files in the order of the command line, those the
    pre-check skips left out; each one is converted in the world the one
    before it left, to the value of [--output] if it has one; the list
    pairs each file with what its conversion returned, and the world is
    the one after the last conversion. *)
Fixpoint conversions
    (convert : str → option str → World → bool * list message * World)
    (files : list str) (o : option str) (w : World)
  : list (str * bool) * World :=
  match files with
  | [] => ([], w)
  | f :: files' =>
      if skipped w f then conversions convert files' o w
      else
        let '(ok, _, w') := convert f (if output_truthy o then o else None) w in
        let '(results, w'') := conversions convert files' o w' in
        ((f, ok) :: results, w'')
  end.

(** The number of conversions that returned [True]. *)
Fixpoint count_ok (results : list (str * bool)) : nat :=
  match results with
  | [] => 0
  | (_, ok) :: results' => (if ok then 1 else 0) + count_ok results'
  end.

Definition is_converted (m : message) : bool :=
  match m with MsgConverted _ _ => true | _ => false end.

(** The number of success lines among the printed lines. *)
Fixpoint successes (out : list message) : nat :=
  match out with
  | [] => 0
  | m :: out' => (if is_converted m then 1 else 0) + successes out'
  end.

End DriverVocabulary.

Section TagVocabulary.
Local Open Scope nat_scope.

(** A tag as ['<.*?>'] matches it: [<], a text [t], [>]. *)
Definition tag (t : str) : str := LT :: t ++ [GT].

(** The text of a tag: no [>] (the match is lazy) and no newline. *)
Definition tag_text (t : str) : Prop := (GT ∉ t) ∧ (NL ∉ t).

(** ['<.*?>'] matches somewhere in [s]: some [<] is followed by a [>] on
    the same line. *)
Fixpoint has_tag (s : str) : bool :=
  match s with
  | [] => false
  | c :: s' =>
      ((c =? LT)%N && bool_decide (is_Some (Re.lazy_until_gt s')))
      || has_tag s'
  end.

(** While [k] characters of a match are still to be dropped, the match
    ends [k - 1] characters ahead. *)
Definition in_match (k : nat) (s : str) : Prop :=
  match k with
  | 0 => True
  | S k' => Re.lazy_until_gt s = Some k'
  end.

End TagVocabulary.

Section TableVocabulary.
Local Open Scope nat_scope.

(** Text with no [<] and no newline. *)
Definition plain (c : str) : Prop := (LT ∉ c) ∧ (NL ∉ c).

(** A cell and a row written on one line, with [th] or [td] cells. *)
Definition cell_html (header : bool) (c : str) : str :=
  if header then py "<th>" ++ c ++ py "</th>"
  else py "<td>" ++ c ++ py "</td>".

Definition row_html (row : bool * list str) : str :=
  ROW_OPEN ++ concat (map (cell_html row.1) row.2) ++ py "</tr>".


End TableVocabulary.

Section ScanVocabulary.
Local Open Scope nat_scope.


End ScanVocabulary.

Section ElementVocabulary.
Local Open Scope nat_scope.

(** An element written on one line: [<name>text</name>]. *)
Definition element_html (name text : str) : str :=
  tag name ++ text ++ tag (47%N :: name).



End ElementVocabulary.

Section BatchVocabulary.
Context `{Platform}.
Local Open Scope nat_scope.

(** The input file a printed line is about. *)
Definition subject (m : message) : option str :=
  match m with
  | MsgMissing f | MsgNotMarkdown f | MsgNotFound f | MsgReadError f
  | MsgConverted f _ | MsgConvertError f => Some f
  | MsgConflict | MsgSummary _ _ => None
  end.

(** The warning of the pre-check for a file it skips: existence is
    tested first. *)
Definition warning (w : World) (f : str) : message :=
  if negb (os_path_exists w f) then MsgMissing f else MsgNotMarkdown f.

(** The output path of a conversion: [--output] if it is given and not
    empty, else the input path with the suffix [.pdf]. *)
Definition output_path (o : option str) (f : str) : str :=
  match o with
  | Some (c :: o') => c :: o'
  | _ => with_suffix_pdf f
  end.

End BatchVocabulary.

(** ** The style sheet of Pipeline B: [setup_custom_styles] *)

Module Styles.

(** [str(n)] for a natural number. *)
Definition str_of_nat (n : nat) : str :=
  py (DecimalString.NilEmpty.string_of_uint (Nat.to_uint n)).

(** A [ParagraphStyle] with the keyword arguments the source gives;
    [parent] is the key the parent is looked up with, colours are the
    arguments of [HexColor], [alignment_left] says whether
    [alignment=TA_LEFT] is passed, and [None] is an argument left out. *)
Record ParagraphStyle := {
  name : str;
  parent : str;
  fontSize : Z;
  spaceAfter : Z;
  spaceBefore : option Z;
  textColor : option str;
  alignment_left : bool;
  fontName : option str;
  backgroundColor : option str;
  borderColor : option str;
  borderWidth : option Z;
  leftIndent : option Z;
  rightIndent : option Z;
}.

Definition custom_title : ParagraphStyle := {|
  name := py "CustomTitle"; parent := py "Title";
  fontSize := 24; spaceAfter := 20; spaceBefore := None;
  textColor := Some (py "#2c3e50"); alignment_left := true;
  fontName := None; backgroundColor := None; borderColor := None;
  borderWidth := None; leftIndent := None; rightIndent := None |}.

(** The body of [for i in range(1, 7)]. *)
Definition custom_heading (i : nat) : ParagraphStyle :=
  let size := (18 - (Z.of_nat i - 1) * 2)%Z in
  let space_after := (16 - (Z.of_nat i - 1) * 2)%Z in
  {| name := py "CustomHeading" ++ str_of_nat i; parent := py "Heading1";
     fontSize := size; spaceAfter := space_after;
     spaceBefore := Some space_after;
     textColor := Some (py "#2c3e50"); alignment_left := true;
     fontName := None; backgroundColor := None; borderColor := None;
     borderWidth := None; leftIndent := None; rightIndent := None |}.

Definition custom_code : ParagraphStyle := {|
  name := py "CustomCode"; parent := py "Code";
  fontSize := 10; spaceAfter := 12; spaceBefore := Some 12%Z;
  textColor := None; alignment_left := false;
  fontName := Some (py "Courier");
  backgroundColor := Some (py "#f8f9fa");
  borderColor := Some (py "#3498db"); borderWidth := Some 1%Z;
  leftIndent := Some 20%Z; rightIndent := Some 20%Z |}.

Definition custom_quote : ParagraphStyle := {|
  name := py "CustomQuote"; parent := py "Normal";
  fontSize := 11; spaceAfter := 12; spaceBefore := Some 12%Z;
  textColor := Some (py "#666666"); alignment_left := false;
  fontName := None; backgroundColor := None;
  borderColor := Some (py "#3498db"); borderWidth := Some 2%Z;
  leftIndent := Some 30%Z; rightIndent := Some 30%Z |}.

(** The styles [setup_custom_styles] adds to the sample sheet, in the
    order of the calls of [self.styles.add]. *)
Definition setup_custom_styles : list ParagraphStyle :=
  [custom_title] ++ map custom_heading (seq 1 6)
  ++ [custom_code; custom_quote].

(** [self.styles[key]] among the added styles. *)
Definition added_style (key : str) : option ParagraphStyle :=
  list_find (λ st, name st = key) setup_custom_styles ≫= λ p, Some p.2.

End Styles.

Section StyleVocabulary.
Local Open Scope nat_scope.

(** The key the transducer looks a style up with. *)
Definition style_key (st : style) : str :=
  match st with
  | Normal => py "Normal"
  | CustomHeading n => py "CustomHeading" ++ Styles.str_of_nat n
  | CustomCode => py "CustomCode"
  | CustomQuote => py "CustomQuote"
  end.



End StyleVocabulary.

Section TextVocabulary.


End TextVocabulary.

(** * Properties of the transducer *)

Section Transducer.
Local Open Scope nat_scope.

(** *** Strings *)

Lemma startswith_take (s p : str) :
  startswith s p = true ↔ take (length p) s = p.
Proof.
  revert s; induction p as [|a p IH]; intros [|c s]; simpl; try done.
  rewrite andb_true_iff, IH, N.eqb_eq. split.
  - intros [-> ->]; done.
  - intros [= -> ->]; done.
Qed.

Lemma startswith_app (p s : str) : startswith (p ++ s) p = true.
Proof. apply startswith_take. by rewrite take_app_length. Qed.

(** Two prefixes of the same length of one string are equal. *)
Lemma startswith_same_length (s p q : str) :
  startswith s p = true → startswith s q = true →
  length p = length q → p = q.
Proof.
  intros Hp%startswith_take Hq%startswith_take Hl.
  rewrite <- Hp, <- Hq, Hl. done.
Qed.

Lemma startswith_nil_false (p : str) : p ≠ [] → startswith [] p = false.
Proof. by destruct p. Qed.





Lemma lstrip_app_nonspace (x y : str) (c : N) :
  isspace c = false → lstrip (x ++ c :: y) = lstrip x ++ c :: y.
Proof.
  intros Hc. induction x as [|a x IH]; simpl.
  - by rewrite Hc.
  - destruct (isspace a); done.
Qed.

(** Stripping a line that opens with a marker [p] whose first and last
    characters are not white space only strips the right of what follows
    the marker. *)
Lemma strip_marker_app (p a : str) (c d : N) (m : str) :
  p = c :: m ++ [d] → isspace c = false → isspace d = false →
  strip (p ++ a) = p ++ rstrip a.
Proof.
  intros -> Hc Hd. unfold strip. simpl. rewrite Hc.
  unfold rstrip. rewrite !app_comm_cons, reverse_app, reverse_snoc.
  rewrite lstrip_app_nonspace by done.
  rewrite reverse_app, <- reverse_snoc, reverse_involutive. done.
Qed.

(** *** [split] and [join] *)





(** *** The three inner loops *)


Lemma quote_while_app (middle tail : list str) (i : nat) (acc : list str) :
  Forall (λ l, closes_quote l = false) middle →
  quote_while (middle ++ tail) i acc
  = quote_while tail (i + length middle)
      (acc ++ map clean_html_tags middle).
Proof.
  revert i acc; induction middle as [|l middle IH]; intros i acc Hall; simpl.
  - by rewrite Nat.add_0_r, app_nil_r.
  - apply Forall_cons in Hall as [Hl Hall]. unfold closes_quote in Hl.
    rewrite Hl, IH by done. rewrite <- app_assoc, Nat.add_succ_r. done.
Qed.

Lemma code_while_index (rest : list str) (i : nat) (acc : list str) :
  i ≤ (code_while rest i acc).2.
Proof.
  revert i acc; induction rest as [|l rest IH]; intros i acc; simpl; [done|].
  destruct (endswith _ _); simpl; [done|].
  specialize (IH (S i) (acc ++ [l])). lia.
Qed.

Lemma quote_while_index (rest : list str) (i : nat) (acc : list str) :
  i ≤ (quote_while rest i acc).2.
Proof.
  revert i acc; induction rest as [|l rest IH]; intros i acc; simpl; [done|].
  destruct (endswith _ _); simpl; [done|].
  specialize (IH (S i) (acc ++ [clean_html_tags l])). lia.
Qed.

Lemma table_while_index (rest : list str) (i : nat) (acc : list (list str)) :
  i ≤ (table_while rest i acc).2.
Proof.
  revert i acc; induction rest as [|l rest IH]; intros i acc; simpl; [done|].
  destruct (startswith _ _); simpl; [done|].
  specialize (IH (S i) (table_line l acc)). lia.
Qed.

(** *** One iteration of the outer loop *)

Ltac split_loop_body :=
  unfold loop_body;
  repeat match goal with
    | |- context [if ?b then _ else _] => destruct b eqn:?
    | |- context [let '(_, _) := ?p in _] => destruct p eqn:?
    | |- context [match ?o with Some _ => _ | None => _ end] => destruct o eqn:?
    end.

Lemma loop_body_index (lines : list str) (i : nat) (raw : str) :
  i < (loop_body lines i raw).2.
Proof.
  split_loop_body; simpl; try lia.
  - pose proof (code_while_index (drop (S i) lines) (S i)
      [clean_html_tags (strip raw)]) as Hle.
    rewrite Heqp in Hle. simpl in Hle. lia.
  - pose proof (code_while_index (drop (S i) lines) (S i)
      [clean_html_tags (strip raw)]) as Hle.
    rewrite Heqp in Hle. simpl in Hle. lia.
  - pose proof (quote_while_index (drop (S i) lines) (S i)
      [clean_html_tags (strip raw)]) as Hle.
    rewrite Heqp in Hle. simpl in Hle. lia.
  - pose proof (quote_while_index (drop (S i) lines) (S i)
      [clean_html_tags (strip raw)]) as Hle.
    rewrite Heqp in Hle. simpl in Hle. lia.
  - pose proof (table_while_index (drop (S i) lines) (S i) []) as Hle.
    rewrite Heqp in Hle. simpl in Hle. lia.
  - pose proof (table_while_index (drop (S i) lines) (S i) []) as Hle.
    rewrite Heqp in Hle. simpl in Hle. lia.
Qed.




(** *** The outer loop *)

Lemma parse_loop_step (fuel : nat) (lines : list str) (i : nat) (raw : str)
    (acc : list flowable) :
  lines !! i = Some raw →
  parse_loop (S fuel) lines i acc
  = parse_loop fuel lines (loop_body lines i raw).2
      (acc ++ (loop_body lines i raw).1).
Proof. intros Hi. simpl. rewrite Hi. by destruct (loop_body lines i raw). Qed.

Lemma parse_loop_end (fuel : nat) (lines : list str) (i : nat)
    (acc : list flowable) :
  length lines ≤ i → parse_loop fuel lines i acc = Some acc.
Proof.
  intros Hi. apply lookup_ge_None_2 in Hi. destruct fuel; simpl; by rewrite Hi.
Qed.

(** With one unit of fuel for every line from [i] on, the loop returns. *)
Lemma parse_loop_returns (fuel : nat) (lines : list str) (i : nat)
    (acc : list flowable) :
  length lines ≤ i + fuel →
  ∃ elements, parse_loop fuel lines i acc = Some elements.
Proof.
  revert i acc; induction fuel as [|fuel IH]; intros i acc Hlen.
  - exists acc. apply parse_loop_end. lia.
  - destruct (lines !! i) as [raw|] eqn:Hi.
    + rewrite (parse_loop_step _ _ _ raw) by done.
      apply IH. pose proof (loop_body_index lines i raw). lia.
    + exists acc. simpl. by rewrite Hi.
Qed.


(** *** Which branch an iteration takes *)

Lemma startswith_truthy (s p : str) :
  startswith s p = true → truthy p = true → truthy s = true.
Proof. by destruct p, s. Qed.

(** A line that starts with [p] does not start with a [q] that is neither
    a prefix nor an extension of [p]. *)
Lemma startswith_other (s p q : str) :
  startswith s p = true → startswith p q = false →
  startswith q p = false → startswith s q = false.
Proof.
  intros Hp Hpq Hqp. destruct (startswith s q) eqn:Hq; [|done].
  apply startswith_take in Hp, Hq.
  destruct (decide (length q ≤ length p)) as [Hle|Hgt].
  - assert (startswith p q = true) as Hc; [|congruence].
    apply startswith_take.
    rewrite <- Hp, take_take, Nat.min_l by done. done.
  - assert (startswith q p = true) as Hc; [|congruence].
    apply startswith_take.
    rewrite <- Hq, take_take, Nat.min_l by lia. done.
Qed.

(** Rewrites away the tests of the branches that come before the branch
    of the marker of hypothesis [H]. *)
Ltac earlier_branches H :=
  unfold loop_body;
  rewrite (startswith_truthy _ _ H) by reflexivity; simpl negb; cbv iota;
  repeat (erewrite (startswith_other _ _ _ H)
            by (vm_compute; reflexivity)).


Lemma loop_body_quote (lines : list str) (i : nat) (raw : str) :
  startswith (strip raw) QUOTE_OPEN = true →
  endswith (strip raw) QUOTE_CLOSE = false →
  loop_body lines i raw =
    let '(quote_lines, j) :=
      quote_while (drop (S i) lines) (S i) [clean_html_tags (strip raw)] in
    let quote_lines :=
      match lines !! j with
      | Some l => quote_lines ++ [clean_html_tags l]
      | None => quote_lines
      end in
    ([Paragraph (join (py " ") quote_lines) CustomQuote; Spacer 1 12], S j).
Proof. intros H Hend. earlier_branches H. rewrite H, Hend. done. Qed.



Lemma lookup_after_drop (lines middle : list str) (i : nat) (tail : list str) :
  drop (S i) lines = middle ++ tail →
  lines !! S (i + length middle) = head tail.
Proof.
  intros Hd. change (S (i + length middle)) with (S i + length middle).
  rewrite <- lookup_drop, Hd.
  rewrite lookup_app_r by lia.
  rewrite Nat.sub_diag. by destruct tail.
Qed.

Lemma length_after_drop (lines middle : list str) (i : nat) (raw : str) :
  lines !! i = Some raw → drop (S i) lines = middle →
  length lines = S i + length middle.
Proof.
  intros Hi%lookup_lt_Some <-. rewrite length_drop. lia.
Qed.

(** *** Termination *)


(** *** Spacers *)


(** *** The scan with the exception of the constructor *)

Lemma parse_loop_raising_step (pp : str → bool) (fuel : nat)
    (lines : list str) (i : nat) (raw : str) (acc : list flowable) :
  lines !! i = Some raw →
  parse_loop_raising pp (S fuel) lines i acc
  = if forallb (builds pp) (loop_body lines i raw).1
    then parse_loop_raising pp fuel lines (loop_body lines i raw).2
           (acc ++ (loop_body lines i raw).1)
    else Some ValueError.
Proof. intros Hi. simpl. rewrite Hi. by destruct (loop_body lines i raw). Qed.

Lemma parse_loop_raising_end (pp : str → bool) (fuel : nat)
    (lines : list str) (i : nat) (acc : list flowable) :
  length lines ≤ i → parse_loop_raising pp fuel lines i acc = Some (Returned acc).
Proof.
  intros Hi. apply lookup_ge_None_2 in Hi. destruct fuel; simpl; by rewrite Hi.
Qed.

(** One iteration that builds a paragraph and its spacer. *)
Lemma parse_loop_raising_paragraph (pp : str → bool) (fuel : nat)
    (lines : list str) (i j : nat) (raw text : str) (st : style) (h : Z)
    (acc : list flowable) :
  lines !! i = Some raw →
  loop_body lines i raw = ([Paragraph text st; Spacer 1 h], j) →
  (pp text = true →
   parse_loop_raising pp (S fuel) lines i acc
   = parse_loop_raising pp fuel lines j (acc ++ [Paragraph text st; Spacer 1 h])) ∧
  (pp text = false →
   parse_loop_raising pp (S fuel) lines i acc = Some ValueError).
Proof.
  intros Hi Hbody. rewrite (parse_loop_raising_step _ _ _ _ raw) by done.
  rewrite Hbody. simpl. split; intros ->; done.
Qed.

(** *** Multi-line code blocks and quotes *)




Lemma loop_body_quote_closed (lines : list str) (i : nat) (raw : str)
    (middle : list str) (closing : str) (rest : list str) :
  startswith (strip raw) QUOTE_OPEN = true →
  endswith (strip raw) QUOTE_CLOSE = false →
  Forall (λ l, closes_quote l = false) middle →
  drop (S i) lines = middle ++ closing :: rest →
  closes_quote closing = true →
  loop_body lines i raw
  = ([Paragraph
        (join (py " ")
           (clean_html_tags (strip raw) :: map clean_html_tags middle
            ++ [clean_html_tags closing]))
        CustomQuote;
      Spacer 1 12], i + length middle + 2).
Proof.
  intros Hopen Hnot Hmid Hd Hclose.
  rewrite loop_body_quote by done.
  rewrite Hd, quote_while_app by done. simpl.
  unfold closes_quote in Hclose. rewrite Hclose.
  rewrite (lookup_after_drop _ _ _ _ Hd). simpl.
  f_equal. lia.
Qed.

Lemma loop_body_quote_open (lines : list str) (i : nat) (raw : str)
    (middle : list str) :
  lines !! i = Some raw →
  startswith (strip raw) QUOTE_OPEN = true →
  endswith (strip raw) QUOTE_CLOSE = false →
  Forall (λ l, closes_quote l = false) middle →
  drop (S i) lines = middle →
  loop_body lines i raw
  = ([Paragraph
        (join (py " ")
           (clean_html_tags (strip raw) :: map clean_html_tags middle))
        CustomQuote;
      Spacer 1 12], S (length lines)).
Proof.
  intros Hi Hopen Hnot Hmid Hd.
  rewrite loop_body_quote by done.
  rewrite <- (app_nil_r (drop (S i) lines)), Hd, quote_while_app by done.
  simpl. rewrite (lookup_after_drop lines middle i []) by by rewrite app_nil_r.
  simpl. rewrite (length_after_drop _ _ _ _ Hi Hd). done.
Qed.

(** C5, as the code has it: the blockquote capture is the code-block
    capture, except that the tags of every captured line (opening,
    intermediate, closing) are stripped and the lines are joined with one
    space.  The joined text goes to the [Paragraph] constructor: when it
    accepts the text, one QuoteBlock (and its spacer) is appended and the
    scan goes on after the closing line (or ends, when the lines end
    first); when it refuses the text, the scan ends with its
    [ValueError] and returns no element. *)
Theorem quote_block_capture (pp : str → bool) (lines : list str) (i : nat)
    (raw : str) (middle : list str) :
  lines !! i = Some raw →
  startswith (strip raw) QUOTE_OPEN = true →
  endswith (strip raw) QUOTE_CLOSE = false →
  Forall (λ l, closes_quote l = false) middle →
  (∀ closing rest fuel acc,
      drop (S i) lines = middle ++ closing :: rest →
      closes_quote closing = true →
      (pp (join (py " ")
             (clean_html_tags (strip raw) :: map clean_html_tags middle
              ++ [clean_html_tags closing])) = true →
       parse_loop_raising pp (S fuel) lines i acc
       = parse_loop_raising pp fuel lines (i + length middle + 2)
           (acc ++ [Paragraph
                      (join (py " ")
                         (clean_html_tags (strip raw)
                          :: map clean_html_tags middle
                          ++ [clean_html_tags closing]))
                      CustomQuote;
                    Spacer 1 12])) ∧
      (pp (join (py " ")
             (clean_html_tags (strip raw) :: map clean_html_tags middle
              ++ [clean_html_tags closing])) = false →
       parse_loop_raising pp (S fuel) lines i acc = Some ValueError)) ∧
  (∀ fuel acc,
      drop (S i) lines = middle →
      (pp (join (py " ")
             (clean_html_tags (strip raw) :: map clean_html_tags middle))
       = true →
       parse_loop_raising pp (S fuel) lines i acc
       = Some (Returned
                 (acc ++ [Paragraph
                            (join (py " ")
                               (clean_html_tags (strip raw)
                                :: map clean_html_tags middle))
                            CustomQuote;
                          Spacer 1 12]))) ∧
      (pp (join (py " ")
             (clean_html_tags (strip raw) :: map clean_html_tags middle))
       = false →
       parse_loop_raising pp (S fuel) lines i acc = Some ValueError)).
Proof.
  intros Hi Hopen Hnot Hmid. split.
  - intros closing rest fuel acc Hd Hclose.
    apply (parse_loop_raising_paragraph pp fuel lines i _ raw); [done|].
    by apply loop_body_quote_closed with rest.
  - intros fuel acc Hd.
    destruct (parse_loop_raising_paragraph pp fuel lines i (S (length lines))
                raw _ CustomQuote 12 acc Hi
                (loop_body_quote_open lines i raw middle Hi Hopen Hnot Hmid Hd))
      as [Hyes Hno].
    split; [|done].
    intros Hpp. rewrite (Hyes Hpp). apply parse_loop_raising_end. lia.
Qed.

(** C5, the claim as written fails: the lines of a quote whose first line
    ends in an opened tag ([> a <b] and [> c] in Markdown).  The tags of
    the captured lines are stripped and the lines joined with spaces as
    the claim says, but the joined text keeps the opened tag [<b], the
    [Paragraph] constructor refuses it, and the transducer raises instead
    of emitting a QuoteBlock. *)
Lemma quote_with_open_tag_raises :
  map clean_html_tags
    [py "<blockquote>"; py "  <p>a <b"; py "  c</p>"; py "</blockquote>"]
  = [[]; py "  a <b"; py "  c"; []] ∧
  (∀ pp : str → bool,
      pp (join (py " ") [[]; py "  a <b"; py "  c"; []]) = false →
      parse_lines_raising pp
        [py "<blockquote>"; py "  <p>a <b"; py "  c</p>"; py "</blockquote>"]
      = Some ValueError) ∧
  parse_lines_raising ToyHost.paragraph_text_parses
    [py "<blockquote>"; py "  <p>a <b"; py "  c</p>"; py "</blockquote>"]
  = Some ValueError.
Proof.
  split; [reflexivity|]. split; [|reflexivity].
  intros pp Hpp. vm_compute in Hpp. vm_compute. by rewrite Hpp.
Qed.

(** *** Tables *)





(** *** Headings *)


Lemma loop_body_heading (lines : list str) (i : nat) (raw : str) (n : nat) :
  1 ≤ n ≤ 6 →
  startswith (strip raw) (heading_tag n) = true →
  loop_body lines i raw
  = ([Paragraph (clean_html_tags (strip raw)) (CustomHeading n);
      Spacer 1 (heading_spacer n)], S i).
Proof.
  intros Hn H.
  destruct n as [|[|[|[|[|[|[|n]]]]]]]; try lia.
  - change (heading_tag 1) with (py "<h1>") in H.
    earlier_branches H. by rewrite H.
  - change (heading_tag 2) with (py "<h2>") in H.
    earlier_branches H. by rewrite H.
  - change (heading_tag 3) with (py "<h3>") in H.
    earlier_branches H. by rewrite H.
  - change (heading_tag 4) with (py "<h4>") in H.
    earlier_branches H. by rewrite H.
  - change (heading_tag 5) with (py "<h5>") in H.
    earlier_branches H. by rewrite H.
  - change (heading_tag 6) with (py "<h6>") in H.
    earlier_branches H. by rewrite H.
Qed.

(** C2, as the code has it: an iteration on a line that starts with the
    opening tag of level [n] (1 to 6) hands the text of the line, tags
    stripped, to the [Paragraph] constructor.  When the constructor
    accepts the text, the iteration appends a Heading of that level and
    then a Spacer whose height depends on the level only, and the scan
    goes on with the next line; when it refuses the text, the scan ends
    with its [ValueError].  The height of the spacer is the largest at
    level 1 and never grows with the depth; it is strictly smaller at the
    deeper of two levels except for levels 5 and 6, which share the
    height 4. *)
Theorem heading_then_spacer :
  (∀ (pp : str → bool) (lines : list str) (i : nat) (raw : str)
     (n fuel : nat) (acc : list flowable),
      1 ≤ n ≤ 6 →
      lines !! i = Some raw →
      startswith (strip raw) (heading_tag n) = true →
      (pp (clean_html_tags (strip raw)) = true →
       parse_loop_raising pp (S fuel) lines i acc
       = parse_loop_raising pp fuel lines (S i)
           (acc ++ [Paragraph (clean_html_tags (strip raw)) (CustomHeading n);
                    Spacer 1 (heading_spacer n)])) ∧
      (pp (clean_html_tags (strip raw)) = false →
       parse_loop_raising pp (S fuel) lines i acc = Some ValueError)) ∧
  (∀ j k : nat, 1 ≤ k → k < j → j ≤ 6 →
      (heading_spacer j ≤ heading_spacer k)%Z ∧
      ((heading_spacer j < heading_spacer k)%Z ∨ (k = 5 ∧ j = 6))).
Proof.
  split.
  - intros pp lines i raw n fuel acc Hn Hi H.
    apply (parse_loop_raising_paragraph pp fuel lines i _ raw); [done|].
    by apply loop_body_heading.
  - intros j k Hk Hkj Hj.
    destruct j as [|[|[|[|[|[|[|j]]]]]]]; try lia;
      destruct k as [|[|[|[|[|[|k]]]]]]; try lia; simpl; lia.
Qed.

(** C2, the claim as written fails: the lines [<h5>a</h5>] and
    [<h6>a</h6>] both get a Spacer of height 4, so the spacer of level 6
    is not smaller than the spacer of level 5. *)
Lemma heading_spacer_5_6_equal :
  ∃ h5 h6 : Z,
    parse_lines [py "<h5>a</h5>"]
    = Some [Paragraph (py "a") (CustomHeading 5); Spacer 1 h5] ∧
    parse_lines [py "<h6>a</h6>"]
    = Some [Paragraph (py "a") (CustomHeading 6); Spacer 1 h6] ∧
    ¬ (h6 < h5)%Z.
Proof. exists 4%Z, 4%Z. repeat split. lia. Qed.

(** *** A fenced code block of three lines *)





End Transducer.

(** * Properties of the batch drivers *)

Section Drivers.
Context `{Platform}.
Local Open Scope nat_scope.

Lemma successes_app (out1 out2 : list message) :
  successes (out1 ++ out2) = successes out1 + successes out2.
Proof. induction out1 as [|m out1 IH]; simpl; [done|]. rewrite IH. lia. Qed.

(** Each conversion prints its success line exactly when it returns
    [True]. *)
Lemma convert_A_successes (f : str) (o : option str) (w : World) :
  successes (PipelineA.convert_markdown_to_pdf f o w).1.2
  = if (PipelineA.convert_markdown_to_pdf f o w).1.1 then 1 else 0.
Proof.
  unfold PipelineA.convert_markdown_to_pdf.
  destruct (open_read w f); try done.
  destruct (write_pdf _ _ _ _) as [[] ?]; done.
Qed.

Lemma convert_B_successes (f : str) (o : option str) (w : World) :
  successes (PipelineB.convert_markdown_to_pdf f o w).1.2
  = if (PipelineB.convert_markdown_to_pdf f o w).1.1 then 1 else 0.
Proof.
  unfold PipelineB.convert_markdown_to_pdf.
  destruct (open_read w f); try done.
  destruct (PipelineB.parse_markdown_to_elements _ _ _) as [[elements|]|];
    [|done|done].
  destruct (doc_build _ _ _) as [[] ?]; done.
Qed.

(** The loop only appends to the printed lines, and its counter grows by
    the number of success lines it appends. *)
Lemma for_files_A_count (files : list str) (o : option str) (n : nat)
    (out : list message) (w : World) :
  ∃ printed,
    (PipelineA.for_files files o n out w).1.2 = out ++ printed ∧
    (PipelineA.for_files files o n out w).1.1 = n + successes printed.
Proof.
  revert n out w; induction files as [|f files IH]; intros n out w; simpl.
  - exists []. by rewrite app_nil_r, Nat.add_0_r.
  - destruct (negb (os_path_exists w f)).
    { destruct (IH n (out ++ [MsgMissing f]) w) as (pr & -> & ->).
      exists (MsgMissing f :: pr). by rewrite <- app_assoc. }
    destruct (negb (markdown_name f)).
    { destruct (IH n (out ++ [MsgNotMarkdown f]) w) as (pr & -> & ->).
      exists (MsgNotMarkdown f :: pr). by rewrite <- app_assoc. }
    pose proof (convert_A_successes f
      (if output_truthy o then o else None) w) as Hc.
    destruct (PipelineA.convert_markdown_to_pdf _ _ _) as [[ok pr1] w'].
    simpl in Hc.
    destruct (IH (if ok then S n else n) (out ++ pr1) w') as (pr & -> & ->).
    exists (pr1 ++ pr). rewrite successes_app, Hc, <- app_assoc.
    split; [done|]. destruct ok; lia.
Qed.

Lemma for_files_B_count (files : list str) (o : option str) (n : nat)
    (out : list message) (w : World) :
  ∃ printed,
    (PipelineB.for_files files o n out w).1.2 = out ++ printed ∧
    (PipelineB.for_files files o n out w).1.1 = n + successes printed.
Proof.
  revert n out w; induction files as [|f files IH]; intros n out w; simpl.
  - exists []. by rewrite app_nil_r, Nat.add_0_r.
  - destruct (negb (os_path_exists w f)).
    { destruct (IH n (out ++ [MsgMissing f]) w) as (pr & -> & ->).
      exists (MsgMissing f :: pr). by rewrite <- app_assoc. }
    destruct (negb (markdown_name f)).
    { destruct (IH n (out ++ [MsgNotMarkdown f]) w) as (pr & -> & ->).
      exists (MsgNotMarkdown f :: pr). by rewrite <- app_assoc. }
    pose proof (convert_B_successes f
      (if output_truthy o then o else None) w) as Hc.
    destruct (PipelineB.convert_markdown_to_pdf _ _ _) as [[ok pr1] w'].
    simpl in Hc.
    destruct (IH (if ok then S n else n) (out ++ pr1) w') as (pr & -> & ->).
    exists (pr1 ++ pr). rewrite successes_app, Hc, <- app_assoc.
    split; [done|]. destruct ok; lia.
Qed.

(** When every file is skipped, the loop converts nothing. *)
Lemma for_files_A_skipped (files : list str) (o : option str) (n : nat)
    (out : list message) (w : World) :
  Forall (λ f, skipped w f = true) files →
  (PipelineA.for_files files o n out w).1.1 = n.
Proof.
  revert out; induction files as [|f files IH]; intros out Hall; [done|].
  apply Forall_cons in Hall as [Hf Hall]. simpl.
  unfold skipped in Hf. destruct (negb (os_path_exists w f)); [by apply IH|].
  simpl in Hf. rewrite Hf. by apply IH.
Qed.

Lemma for_files_B_skipped (files : list str) (o : option str) (n : nat)
    (out : list message) (w : World) :
  Forall (λ f, skipped w f = true) files →
  (PipelineB.for_files files o n out w).1.1 = n.
Proof.
  revert out; induction files as [|f files IH]; intros out Hall; [done|].
  apply Forall_cons in Hall as [Hf Hall]. simpl.
  unfold skipped in Hf. destruct (negb (os_path_exists w f)); [by apply IH|].
  simpl in Hf. rewrite Hf. by apply IH.
Qed.

(** What a run that passes the test on [--output] prints and returns. *)
Lemma main_A_run (args : Args) (w : World) :
  conflict args = false →
  ∃ printed,
    stdout (PipelineA.main args w)
    = printed ++ [MsgSummary (successes printed) (length (input_files args))] ∧
    exit_code (PipelineA.main args w)
    = (if successes printed =? 0 then 1%Z else 0%Z) ∧
    (Forall (λ f, skipped w f = true) (input_files args) →
     successes printed = 0).
Proof.
  intros Hc. unfold PipelineA.main. fold (conflict args). rewrite Hc.
  pose proof (for_files_A_count (input_files args) (output args) 0 [] w)
    as (printed & Hout & Hn).
  pose proof (for_files_A_skipped (input_files args) (output args) 0 [] w)
    as Hsk.
  destruct (PipelineA.for_files _ _ _ _ _) as [[n out] w'].
  simpl in Hout, Hn, Hsk. subst out n.
  exists printed. destruct (successes printed =? 0); simpl; auto.
Qed.

Lemma main_B_run (args : Args) (w : World) :
  conflict args = false →
  ∃ printed,
    stdout (PipelineB.main args w)
    = printed ++ [MsgSummary (successes printed) (length (input_files args))] ∧
    exit_code (PipelineB.main args w)
    = (if successes printed =? 0 then 1%Z else 0%Z) ∧
    (Forall (λ f, skipped w f = true) (input_files args) →
     successes printed = 0).
Proof.
  intros Hc. unfold PipelineB.main. fold (conflict args). rewrite Hc.
  pose proof (for_files_B_count (input_files args) (output args) 0 [] w)
    as (printed & Hout & Hn).
  pose proof (for_files_B_skipped (input_files args) (output args) 0 [] w)
    as Hsk.
  destruct (PipelineB.for_files _ _ _ _ _) as [[n out] w'].
  simpl in Hout, Hn, Hsk. subst out n.
  exists printed. destruct (successes printed =? 0); simpl; auto.
Qed.

Lemma main_A_conflict (args : Args) (w : World) :
  conflict args = true →
  PipelineA.main args w
  = {| stdout := [MsgConflict]; exit_code := 1; world := w |}.
Proof.
  intros Hc. unfold PipelineA.main. fold (conflict args). by rewrite Hc.
Qed.

Lemma main_B_conflict (args : Args) (w : World) :
  conflict args = true →
  PipelineB.main args w
  = {| stdout := [MsgConflict]; exit_code := 1; world := w |}.
Proof.
  intros Hc. unfold PipelineB.main. fold (conflict args). by rewrite Hc.
Qed.

Lemma denominator_A (args : Args) (w : World) :
  denominator (PipelineA.main args w)
  = if conflict args then None else Some (length (input_files args)).
Proof.
  destruct (conflict args) eqn:Hc.
  - by rewrite main_A_conflict.
  - destruct (main_A_run args w Hc) as (printed & Hout & _).
    unfold denominator. by rewrite Hout, last_snoc.
Qed.

Lemma denominator_B (args : Args) (w : World) :
  denominator (PipelineB.main args w)
  = if conflict args then None else Some (length (input_files args)).
Proof.
  destruct (conflict args) eqn:Hc.
  - by rewrite main_B_conflict.
  - destruct (main_B_run args w Hc) as (printed & Hout & _).
    unfold denominator. by rewrite Hout, last_snoc.
Qed.

(** *** The summary line *)

(** C4, as the code has it: the two pipelines do not differ.  In every
    run that passes the test on [--output], both print the same
    denominator, the number of input arguments, so that the files skipped
    by the pre-check count toward it in both. *)
Theorem summary_denominator_agrees (args : Args) (w : World) :
  conflict args = false →
  denominator (PipelineA.main args w) = Some (length (input_files args)) ∧
  denominator (PipelineB.main args w) = Some (length (input_files args)).
Proof. intros Hc. by rewrite denominator_A, denominator_B, Hc. Qed.

(** *** The test on [--output] *)

(** C7, as the code has it: with more than one input file and [--output]
    set to a non-empty value, both scripts print the conflict error and
    exit with status 1; nothing else is printed, no conversion is
    attempted and the world is left as it was. *)
Theorem output_conflict_exits (args : Args) (w : World) (o : str) :
  1 < length (input_files args) →
  output args = Some o →
  o ≠ [] →
  PipelineA.main args w
  = {| stdout := [MsgConflict]; exit_code := 1; world := w |} ∧
  PipelineB.main args w
  = {| stdout := [MsgConflict]; exit_code := 1; world := w |}.
Proof.
  intros Hlen Ho Hne.
  assert (conflict args = true) as Hc.
  { unfold conflict. rewrite Ho. destruct o; [done|]. simpl.
    rewrite andb_true_r. by apply Nat.ltb_lt. }
  by rewrite main_A_conflict, main_B_conflict.
Qed.

(** *** The exit status *)

Lemma count_ok_pos (results : list (str * bool)) :
  0 < count_ok results ↔ ∃ f, (f, true) ∈ results.
Proof.
  induction results as [|[f ok] results IH]; simpl.
  - split; [lia|]. intros (f & Hin). by apply elem_of_nil in Hin.
  - split.
    + destruct ok.
      * intros _. exists f. by left.
      * intros (f' & Hin)%IH. exists f'. by right.
    + intros (f' & [Heq|Hin]%elem_of_cons).
      * injection Heq as <- <-. lia.
      * assert (0 < count_ok results) by (apply IH; eauto). lia.
Qed.

Lemma conversions_skipped
    (convert : str → option str → World → bool * list message * World)
    (files : list str) (o : option str) (w : World) :
  Forall (λ f, skipped w f = true) files →
  conversions convert files o w = ([], w).
Proof.
  induction files as [|f files IH]; intros Hall; [done|].
  apply Forall_cons in Hall as [Hf Hall]. simpl. rewrite Hf. by apply IH.
Qed.

(** The counter of the loop counts the conversions that returned [True],
    and the loop leaves the world they leave. *)
Lemma for_files_A_conversions (files : list str) (o : option str) (n : nat)
    (out : list message) (w : World) :
  (PipelineA.for_files files o n out w).1.1
  = n + count_ok
          (conversions PipelineA.convert_markdown_to_pdf files o w).1 ∧
  (PipelineA.for_files files o n out w).2
  = (conversions PipelineA.convert_markdown_to_pdf files o w).2.
Proof.
  revert n out w; induction files as [|f files IH]; intros n out w; simpl.
  - split; [lia|done].
  - unfold skipped.
    destruct (negb (os_path_exists w f)); [apply IH|].
    destruct (negb (markdown_name f)); [apply IH|]. simpl.
    destruct (PipelineA.convert_markdown_to_pdf _ _ _) as [[ok pr] w'].
    destruct (IH (if ok then S n else n) (out ++ pr) w') as [-> ->].
    destruct (conversions _ files o w') as [results w'']. simpl.
    split; [|done]. destruct ok; lia.
Qed.

Lemma for_files_B_conversions (files : list str) (o : option str) (n : nat)
    (out : list message) (w : World) :
  (PipelineB.for_files files o n out w).1.1
  = n + count_ok
          (conversions PipelineB.convert_markdown_to_pdf files o w).1 ∧
  (PipelineB.for_files files o n out w).2
  = (conversions PipelineB.convert_markdown_to_pdf files o w).2.
Proof.
  revert n out w; induction files as [|f files IH]; intros n out w; simpl.
  - split; [lia|done].
  - unfold skipped.
    destruct (negb (os_path_exists w f)); [apply IH|].
    destruct (negb (markdown_name f)); [apply IH|]. simpl.
    destruct (PipelineB.convert_markdown_to_pdf _ _ _) as [[ok pr] w'].
    destruct (IH (if ok then S n else n) (out ++ pr) w') as [-> ->].
    destruct (conversions _ files o w') as [results w'']. simpl.
    split; [|done]. destruct ok; lia.
Qed.

Lemma main_A_conversions (args : Args) (w : World) :
  conflict args = false →
  exit_code (PipelineA.main args w)
  = (if count_ok (conversions PipelineA.convert_markdown_to_pdf
                    (input_files args) (output args) w).1 =? 0
     then 1%Z else 0%Z) ∧
  world (PipelineA.main args w)
  = (conversions PipelineA.convert_markdown_to_pdf
       (input_files args) (output args) w).2.
Proof.
  intros Hc. unfold PipelineA.main. fold (conflict args). rewrite Hc.
  pose proof (for_files_A_conversions (input_files args) (output args) 0 [] w)
    as [Hn Hw].
  destruct (PipelineA.for_files _ _ _ _ _) as [[n out] w'].
  simpl in Hn, Hw. subst n w'.
  by destruct (count_ok _ =? 0).
Qed.

Lemma main_B_conversions (args : Args) (w : World) :
  conflict args = false →
  exit_code (PipelineB.main args w)
  = (if count_ok (conversions PipelineB.convert_markdown_to_pdf
                    (input_files args) (output args) w).1 =? 0
     then 1%Z else 0%Z) ∧
  world (PipelineB.main args w)
  = (conversions PipelineB.convert_markdown_to_pdf
       (input_files args) (output args) w).2.
Proof.
  intros Hc. unfold PipelineB.main. fold (conflict args). rewrite Hc.
  pose proof (for_files_B_conversions (input_files args) (output args) 0 [] w)
    as [Hn Hw].
  destruct (PipelineB.for_files _ _ _ _ _) as [[n out] w'].
  simpl in Hn, Hw. subst n w'.
  by destruct (count_ok _ =? 0).
Qed.

Lemma main_A_successes_count (args : Args) (w : World) :
  conflict args = false →
  successes (stdout (PipelineA.main args w))
  = count_ok (conversions PipelineA.convert_markdown_to_pdf
                (input_files args) (output args) w).1.
Proof.
  intros Hc. unfold PipelineA.main. fold (conflict args). rewrite Hc.
  pose proof (for_files_A_count (input_files args) (output args) 0 [] w)
    as (printed & Hout & Hn).
  pose proof (for_files_A_conversions (input_files args) (output args) 0 [] w)
    as [Hn' _].
  destruct (PipelineA.for_files _ _ _ _ _) as [[n out] w'].
  simpl in Hout, Hn, Hn'. subst out.
  assert (∀ x y, successes (printed ++ [MsgSummary x y]) = successes printed)
    as Hs by (intros; rewrite successes_app; simpl; lia).
  destruct (n =? 0); simpl; rewrite Hs; lia.
Qed.

Lemma main_B_successes_count (args : Args) (w : World) :
  conflict args = false →
  successes (stdout (PipelineB.main args w))
  = count_ok (conversions PipelineB.convert_markdown_to_pdf
                (input_files args) (output args) w).1.
Proof.
  intros Hc. unfold PipelineB.main. fold (conflict args). rewrite Hc.
  pose proof (for_files_B_count (input_files args) (output args) 0 [] w)
    as (printed & Hout & Hn).
  pose proof (for_files_B_conversions (input_files args) (output args) 0 [] w)
    as [Hn' _].
  destruct (PipelineB.for_files _ _ _ _ _) as [[n out] w'].
  simpl in Hout, Hn, Hn'. subst out.
  assert (∀ x y, successes (printed ++ [MsgSummary x y]) = successes printed)
    as Hs by (intros; rewrite successes_app; simpl; lia).
  destruct (n =? 0); simpl; rewrite Hs; lia.
Qed.

Lemma exit_code_of_count (results : list (str * bool)) (code : Z) :
  code = (if count_ok results =? 0 then 1%Z else 0%Z) →
  (code = 0%Z ↔ ∃ f, (f, true) ∈ results) ∧
  (code = 1%Z ↔ ¬ ∃ f, (f, true) ∈ results).
Proof.
  intros ->. rewrite <- count_ok_pos.
  destruct (Nat.eqb_spec (count_ok results) 0) as [->|Hne]; split; split;
    try done; try lia.
Qed.

(** A conversion returns [True] exactly when the file is read and the
    rendering call on the output path returns normally (in Pipeline B:
    after a scan in which no constructor raised). *)
Lemma convert_A_true (f : str) (o : option str) (w : World) :
  (PipelineA.convert_markdown_to_pdf f o w).1.1 = true ↔
  ∃ md, open_read w f = ReadOk md ∧
        (write_pdf (path_stem f) (markdown2_markdown md)
           (default (with_suffix_pdf f) o) w).1 = true.
Proof.
  unfold PipelineA.convert_markdown_to_pdf.
  destruct (open_read w f) as [md| |]; simpl.
  - replace (match o with Some o0 => o0 | None => with_suffix_pdf f end)
      with (default (with_suffix_pdf f) o) by by destruct o.
    destruct (write_pdf _ _ _ _) as [[] w'] eqn:Hw; simpl; split;
      try done.
    + intros _. exists md. by rewrite Hw.
    + intros (md' & Heq & Hok). injection Heq as <-.
      by rewrite Hw in Hok.
  - split; [done|]. by intros (md & ? & _).
  - split; [done|]. by intros (md & ? & _).
Qed.

Lemma convert_B_true (f : str) (o : option str) (w : World) :
  (PipelineB.convert_markdown_to_pdf f o w).1.1 = true ↔
  ∃ md elements,
    open_read w f = ReadOk md ∧
    PipelineB.parse_markdown_to_elements paragraph_parses markdown2_markdown md
    = Some (Returned elements) ∧
    (doc_build (default (with_suffix_pdf f) o) elements w).1 = true.
Proof.
  unfold PipelineB.convert_markdown_to_pdf.
  destruct (open_read w f) as [md| |]; simpl.
  - replace (match o with Some o0 => o0 | None => with_suffix_pdf f end)
      with (default (with_suffix_pdf f) o) by by destruct o.
    destruct (PipelineB.parse_markdown_to_elements _ _ _)
      as [[elements|]|] eqn:Hscan.
    + destruct (doc_build _ _ _) as [[] w'] eqn:Hb; simpl; split; try done.
      * intros _. exists md, elements. by rewrite Hb.
      * intros (md' & els & Heq & Hels & Hok).
        injection Heq as <-. rewrite Hscan in Hels.
        injection Hels as <-. by rewrite Hb in Hok.
    + split; [done|]. intros (md' & els & Heq & Hels & _).
      injection Heq as <-. by rewrite Hscan in Hels.
    + split; [done|]. intros (md' & els & Heq & Hels & _).
      injection Heq as <-. by rewrite Hscan in Hels.
  - split; [done|]. by intros (md & els & ? & _).
  - split; [done|]. by intros (md & els & ? & _).
Qed.

(** C8: in every run that passes the test on [--output], each script
    exits with status 0 exactly when at least one of its conversions
    returned [True], and with status 1 exactly when none did; the world
    it leaves is the world the conversions leave, and each conversion
    that returned [True] printed its success line, and no other line is
    a success line.  A conversion returns [True] exactly when the input
    file is read and the rendering call on the output path returns
    normally (in the second script, after a scan of the HTML in which no
    constructor raised).  In particular each script exits with status 1
    and leaves the world as it was when the pre-check skips every input
    file. *)
Theorem exit_code_iff_success (args : Args) (w : World) :
  conflict args = false →
  ((exit_code (PipelineA.main args w) = 0%Z ↔
      ∃ f, (f, true) ∈ (conversions PipelineA.convert_markdown_to_pdf
                          (input_files args) (output args) w).1) ∧
   (exit_code (PipelineA.main args w) = 1%Z ↔
      ¬ ∃ f, (f, true) ∈ (conversions PipelineA.convert_markdown_to_pdf
                            (input_files args) (output args) w).1) ∧
   world (PipelineA.main args w)
   = (conversions PipelineA.convert_markdown_to_pdf
        (input_files args) (output args) w).2 ∧
   successes (stdout (PipelineA.main args w))
   = count_ok (conversions PipelineA.convert_markdown_to_pdf
                 (input_files args) (output args) w).1 ∧
   (Forall (λ f, skipped w f = true) (input_files args) →
      exit_code (PipelineA.main args w) = 1%Z ∧
      world (PipelineA.main args w) = w)) ∧
  ((exit_code (PipelineB.main args w) = 0%Z ↔
      ∃ f, (f, true) ∈ (conversions PipelineB.convert_markdown_to_pdf
                          (input_files args) (output args) w).1) ∧
   (exit_code (PipelineB.main args w) = 1%Z ↔
      ¬ ∃ f, (f, true) ∈ (conversions PipelineB.convert_markdown_to_pdf
                            (input_files args) (output args) w).1) ∧
   world (PipelineB.main args w)
   = (conversions PipelineB.convert_markdown_to_pdf
        (input_files args) (output args) w).2 ∧
   successes (stdout (PipelineB.main args w))
   = count_ok (conversions PipelineB.convert_markdown_to_pdf
                 (input_files args) (output args) w).1 ∧
   (Forall (λ f, skipped w f = true) (input_files args) →
      exit_code (PipelineB.main args w) = 1%Z ∧
      world (PipelineB.main args w) = w)) ∧
  (∀ f o w0,
      (PipelineA.convert_markdown_to_pdf f o w0).1.1 = true ↔
      ∃ md, open_read w0 f = ReadOk md ∧
            (write_pdf (path_stem f) (markdown2_markdown md)
               (default (with_suffix_pdf f) o) w0).1 = true) ∧
  (∀ f o w0,
      (PipelineB.convert_markdown_to_pdf f o w0).1.1 = true ↔
      ∃ md elements,
        open_read w0 f = ReadOk md ∧
        PipelineB.parse_markdown_to_elements paragraph_parses
          markdown2_markdown md = Some (Returned elements) ∧
        (doc_build (default (with_suffix_pdf f) o) elements w0).1 = true).
Proof.
  intros Hc. split; [|split; [|split]].
  - destruct (main_A_conversions args w Hc) as [Hcode Hw].
    destruct (exit_code_of_count _ _ Hcode) as [H0 H1].
    split; [done|]. split; [done|]. split; [done|]. split.
    + apply main_A_successes_count; done.
    + intros Hall. rewrite Hcode, Hw, conversions_skipped by done. done.
  - destruct (main_B_conversions args w Hc) as [Hcode Hw].
    destruct (exit_code_of_count _ _ Hcode) as [H0 H1].
    split; [done|]. split; [done|]. split; [done|]. split.
    + apply main_B_successes_count; done.
    + intros Hall. rewrite Hcode, Hw, conversions_skipped by done. done.
  - apply convert_A_true.
  - apply convert_B_true.
Qed.

End Drivers.

(** C4, the claim as written fails: on no platform, for no batch with a
    skipped file, do the two scripts print different denominators. *)
Lemma summary_denominator_never_differs :
  ¬ ∃ (P : Platform) (args : Args) (w : World),
      (∃ f, f ∈ input_files args ∧ skipped w f = true) ∧
      denominator (PipelineA.main args w)
      ≠ denominator (PipelineB.main args w).
Proof.
  intros (P & args & w & _ & Hne). apply Hne.
  by rewrite denominator_A, denominator_B.
Qed.

(** C7, the claim as written fails: with two input files and [--output]
    set to the empty string the test does not fire; both files are
    converted to their default outputs and the scripts exit with
    status 0. *)
Lemma empty_output_no_conflict :
  stdout (PipelineB.main (H := ToyHost.toy)
            {| input_files := [py "a.md"; py "b.md"]; output := Some [] |}
            [py "a.md"; py "b.md"])
  = [MsgConverted (py "a.md") (py "a.pdf");
     MsgConverted (py "b.md") (py "b.pdf");
     MsgSummary 2 2] ∧
  exit_code (PipelineB.main (H := ToyHost.toy)
            {| input_files := [py "a.md"; py "b.md"]; output := Some [] |}
            [py "a.md"; py "b.md"]) = 0%Z ∧
  exit_code (PipelineA.main (H := ToyHost.toy)
            {| input_files := [py "a.md"; py "b.md"]; output := Some [] |}
            [py "a.md"; py "b.md"]) = 0%Z.
Proof. repeat split. Qed.

(** * The theorems at concrete inputs *)

Section Instances.
Local Open Scope nat_scope.



(** A quote of three HTML lines, as the converter writes it. *)
Lemma quote_block_capture_witness :
  parse_loop_raising ToyHost.paragraph_text_parses 1
    [py "<blockquote>"; py "  <p>quoted <em>text</em></p>"; py "</blockquote>"]
    0 []
  = parse_loop_raising ToyHost.paragraph_text_parses 0
      [py "<blockquote>"; py "  <p>quoted <em>text</em></p>"; py "</blockquote>"]
      3
      [Paragraph (join (py " ") [[]; py "  quoted text"; []]) CustomQuote;
       Spacer 1 12].
Proof.
  refine (proj1 (proj1 (quote_block_capture ToyHost.paragraph_text_parses
    [py "<blockquote>"; py "  <p>quoted <em>text</em></p>"; py "</blockquote>"]
    0 (py "<blockquote>") [py "  <p>quoted <em>text</em></p>"] _ _ _ _)
    (py "</blockquote>") [] 0 [] _ _) _);
    try reflexivity.
  repeat constructor.
Defined.


(** A second-level heading, and a first-level heading whose text keeps
    an opened tag. *)
Lemma heading_then_spacer_witness :
  parse_loop_raising ToyHost.paragraph_text_parses 1 [py "<h2>Intro</h2>"] 0 []
  = parse_loop_raising ToyHost.paragraph_text_parses 0 [py "<h2>Intro</h2>"] 1
      [Paragraph (py "Intro") (CustomHeading 2); Spacer 1 10] ∧
  parse_loop_raising ToyHost.paragraph_text_parses 1 [py "<h1>a <b"] 0 []
  = Some ValueError ∧
  (heading_spacer 6 ≤ heading_spacer 5)%Z.
Proof.
  split; [|split].
  - refine (proj1 (proj1 heading_then_spacer ToyHost.paragraph_text_parses
              [py "<h2>Intro</h2>"] 0 (py "<h2>Intro</h2>") 2 0 [] _ _ _) _);
      [lia|reflexivity|reflexivity|reflexivity].
  - refine (proj2 (proj1 heading_then_spacer ToyHost.paragraph_text_parses
              [py "<h1>a <b"] 0 (py "<h1>a <b") 1 0 [] _ _ _) _);
      [lia|reflexivity|reflexivity|reflexivity].
  - refine (proj1 (proj2 heading_then_spacer 6 5 _ _ _)); lia.
Defined.


(** Two files and an output name. *)
Lemma output_conflict_exits_witness :
  PipelineA.main (H := ToyHost.toy)
    {| input_files := [py "a.md"; py "b.md"]; output := Some (py "out.pdf") |}
    [py "a.md"; py "b.md"]
  = @Build_Outcome ToyHost.toy [MsgConflict] 1 [py "a.md"; py "b.md"] ∧
  PipelineB.main (H := ToyHost.toy)
    {| input_files := [py "a.md"; py "b.md"]; output := Some (py "out.pdf") |}
    [py "a.md"; py "b.md"]
  = @Build_Outcome ToyHost.toy [MsgConflict] 1 [py "a.md"; py "b.md"].
Proof.
  apply (output_conflict_exits (H := ToyHost.toy)
    {| input_files := [py "a.md"; py "b.md"]; output := Some (py "out.pdf") |}
    [py "a.md"; py "b.md"] (py "out.pdf"));
    [simpl; lia|reflexivity|discriminate].
Defined.

(** Three files, one of them skipped for its extension. *)
Lemma summary_denominator_agrees_witness :
  denominator (PipelineA.main (H := ToyHost.toy)
    {| input_files := ToyHost.some_files; output := None |} ToyHost.some_files)
  = Some 3 ∧
  denominator (PipelineB.main (H := ToyHost.toy)
    {| input_files := ToyHost.some_files; output := None |} ToyHost.some_files)
  = Some 3.
Proof.
  apply (summary_denominator_agrees (H := ToyHost.toy)
    {| input_files := ToyHost.some_files; output := None |}
    ToyHost.some_files).
  reflexivity.
Defined.

Lemma exit_code_iff_success_witness :
  (exit_code (PipelineA.main (H := ToyHost.toy)
     {| input_files := ToyHost.some_files; output := None |} ToyHost.some_files)
   = 0%Z ↔
   ∃ f, (f, true) ∈ [(py "a.md", true); (py "B.MD", true)]) ∧
  world (PipelineB.main (H := ToyHost.toy)
     {| input_files := ToyHost.some_files; output := None |} ToyHost.some_files)
  = py "B.pdf" :: py "a.pdf" :: ToyHost.some_files.
Proof.
  pose proof (exit_code_iff_success (H := ToyHost.toy)
    {| input_files := ToyHost.some_files; output := None |}
    ToyHost.some_files eq_refl) as (HA & HB & _).
  split.
  - exact (proj1 HA).
  - exact (proj1 (proj2 (proj2 HB))).
Defined.

(** A whole document: a heading, a blank line, a paragraph, a list item,
    an empty paragraph and a table whose rows have no cells. *)
Example parse_lines_document :
  parse_lines
    [py "<h1>Title</h1>"; []; py "<p>Some <em>text</em>.</p>";
     py "<li>item</li>"; py "<p>  </p>";
     py "<table>"; py "<tr>"; py "  <td>x</td>"; py "</tr>"; py "</table>"]
  = Some [Paragraph (py "Title") (CustomHeading 1); Spacer 1 12;
          Paragraph (py "Some text.") Normal; Spacer 1 6;
          Paragraph (BULLET ++ py "item") Normal; Spacer 1 3].
Proof. reflexivity. Qed.

(** A tag that is never closed stays in the text. *)
Example clean_html_tags_unclosed :
  clean_html_tags (py "a <b>bold</b> and 1 < 2") = py "a bold and 1 < 2".
Proof. reflexivity. Qed.

End Instances.

(** * Properties of [clean_html_tags] *)

Section CleanTags.
Local Open Scope nat_scope.

Lemma sub_tags_sublist (k : nat) (s : str) : Re.sub_tags k s `sublist_of` s.
Proof.
  revert k; induction s as [|c s IH]; intros k; simpl; [constructor|].
  destruct k as [|k]; [|by apply sublist_cons].
  destruct (c =? LT)%N; [|by apply sublist_skip].
  destruct (Re.lazy_until_gt s); [by apply sublist_cons|by apply sublist_skip].
Qed.

Lemma sub_tags_no_tag (s : str) : has_tag s = false → Re.sub_tags 0 s = s.
Proof.
  induction s as [|c s IH]; simpl; [done|].
  intros [Hc Hs]%orb_false_iff. rewrite (IH Hs).
  destruct (c =? LT)%N; [|done]. simpl in Hc.
  destruct (Re.lazy_until_gt s); [|done].
  by rewrite bool_decide_eq_false in Hc; destruct Hc.
Qed.

Lemma sub_tags_shorter (s : str) :
  has_tag s = true → length (Re.sub_tags 0 s) < length s.
Proof.
  induction s as [|c s IH]; simpl; [done|].
  intros Htag.
  destruct (c =? LT)%N; simpl in Htag.
  - destruct (Re.lazy_until_gt s) as [n|].
    + pose proof (sublist_length _ _ (sub_tags_sublist (S n) s)). lia.
    + simpl in Htag. specialize (IH Htag). simpl. lia.
  - specialize (IH Htag). simpl. lia.
Qed.

(** X1: [clean_html_tags] only deletes: its result is a subsequence of the
    text (same characters, same order, never longer), and it is the text
    itself exactly when the text has no tag. *)
Theorem clean_html_tags_only_deletes (text : str) :
  clean_html_tags text `sublist_of` text ∧
  length (clean_html_tags text) ≤ length text ∧
  (clean_html_tags text = text ↔ has_tag text = false).
Proof.
  split; [apply sub_tags_sublist|].
  split; [apply sublist_length, sub_tags_sublist|].
  split; [|apply sub_tags_no_tag].
  intros Heq. destruct (has_tag text) eqn:Htag; [|done].
  apply sub_tags_shorter in Htag. unfold clean_html_tags in Heq.
  rewrite Heq in Htag. lia.
Qed.

(** A [<] that starts no tag starts none after the tags behind it are
    removed: the newline that cuts it off is never removed. *)
Lemma lazy_until_gt_sub_tags (s : str) :
  Re.lazy_until_gt s = None → Re.lazy_until_gt (Re.sub_tags 0 s) = None.
Proof.
  induction s as [|c s IH]; simpl; [done|].
  destruct (c =? GT)%N eqn:Hgt; [done|].
  destruct (c =? NL)%N eqn:Hnl.
  - intros _. destruct (c =? LT)%N eqn:Hlt.
    + apply N.eqb_eq in Hnl, Hlt. by rewrite Hnl in Hlt.
    + simpl. by rewrite Hgt, Hnl.
  - intros Hs. destruct (Re.lazy_until_gt s) eqn:Hl; [done|].
    specialize (IH eq_refl).
    destruct (c =? LT)%N; simpl; by rewrite Hgt, Hnl, IH.
Qed.

Lemma sub_tags_has_no_tag (k : nat) (s : str) :
  in_match k s → has_tag (Re.sub_tags k s) = false.
Proof.
  revert k; induction s as [|c s IH]; intros k Hk; simpl; [done|].
  destruct k as [|k].
  - destruct (c =? LT)%N eqn:Hlt.
    + destruct (Re.lazy_until_gt s) as [n|] eqn:Hl.
      * by apply IH.
      * simpl. rewrite Hlt, (lazy_until_gt_sub_tags _ Hl). simpl.
        by apply (IH 0).
    + simpl. rewrite Hlt. simpl. by apply (IH 0).
  - simpl in Hk. destruct (c =? GT)%N.
    + injection Hk as <-. by apply (IH 0).
    + destruct (c =? NL)%N; [done|].
      destruct (Re.lazy_until_gt s) as [n|] eqn:Hl; [|done].
      injection Hk as <-. by apply IH.
Qed.

(** X2: what [clean_html_tags] returns has no tag left, so cleaning twice
    is cleaning once. *)
Theorem clean_html_tags_idempotent (text : str) :
  has_tag (clean_html_tags text) = false ∧
  clean_html_tags (clean_html_tags text) = clean_html_tags text.
Proof.
  assert (has_tag (clean_html_tags text) = false) as Hno
    by by apply (sub_tags_has_no_tag 0).
  split; [done|]. by apply sub_tags_no_tag.
Qed.

Lemma lazy_until_gt_tag_text (t s : str) :
  tag_text t → Re.lazy_until_gt (t ++ GT :: s) = Some (length t).
Proof.
  intros [Hgt Hnl]. induction t as [|c t IH]; simpl; [done|].
  apply not_elem_of_cons in Hgt as [Hc1 Hgt].
  apply not_elem_of_cons in Hnl as [Hc2 Hnl].
  destruct (N.eqb_spec c GT) as [->|_]; [done|].
  destruct (N.eqb_spec c NL) as [->|_]; [done|].
  by rewrite IH.
Qed.

Lemma sub_tags_skip (x s : str) :
  Re.sub_tags (length x) (x ++ s) = Re.sub_tags 0 s.
Proof. induction x as [|c x IH]; simpl; done. Qed.

Lemma sub_tags_plain_then_tag (a t s : str) :
  LT ∉ a → tag_text t →
  Re.sub_tags 0 (a ++ tag t ++ s) = a ++ Re.sub_tags 0 s.
Proof.
  intros Ha Ht. induction a as [|c a IH]; simpl.
  - unfold tag. rewrite <- app_assoc. simpl.
    rewrite lazy_until_gt_tag_text by done.
    change (GT :: s) with ([GT] ++ s). rewrite app_assoc.
    replace (S (length t)) with (length (t ++ [GT]))
      by (rewrite length_app; simpl; lia).
    apply sub_tags_skip.
  - apply not_elem_of_cons in Ha as [Hc Ha].
    destruct (N.eqb_spec c LT) as [->|_]; [done|].
    f_equal. by apply IH.
Qed.

(** X3: text without [<], followed by a tag, is kept and the tag is
    removed, whatever follows; and a [<] with no [>] after it on its line
    is not the start of a tag and is kept. *)
Theorem clean_html_tags_plain_then_tag (a t rest : str) :
  LT ∉ a → tag_text t →
  clean_html_tags (a ++ tag t ++ rest) = a ++ clean_html_tags rest ∧
  (Re.lazy_until_gt rest = None →
   clean_html_tags (a ++ LT :: rest) = a ++ LT :: clean_html_tags rest).
Proof.
  intros Ha Ht. split; [by apply sub_tags_plain_then_tag|].
  intros Hrest. unfold clean_html_tags.
  induction a as [|c a IH]; simpl.
  - by rewrite Hrest.
  - apply not_elem_of_cons in Ha as [Hc Ha].
    destruct (N.eqb_spec c LT) as [->|_]; [done|].
    by rewrite IH.
Qed.

End CleanTags.

(** * Properties of the table branch *)

Section Tables.
Local Open Scope nat_scope.

Lemma findall_from_skip (x s : str) :
  Re.findall_from (length x) (x ++ s) = Re.findall_from 0 s.
Proof. induction x as [|c x IH]; simpl; done. Qed.

Lemma startswith_head (x : N) (r : str) (a : N) (p : str) :
  startswith (x :: r) (a :: p) = true → x = a.
Proof. simpl. by intros [?%N.eqb_eq _]%andb_true_iff. Qed.

Lemma is_cell_close_head (x : N) (r : str) :
  Re.is_cell_close (x :: r) = true → x = LT.
Proof.
  unfold Re.is_cell_close. intros [Hx|Hx]%orb_true_iff.
  - exact (startswith_head x r 60%N (py "/th>") Hx).
  - exact (startswith_head x r 60%N (py "/td>") Hx).
Qed.

Lemma lazy_until_cell_close_plain (c close s : str) :
  plain c → Re.is_cell_close (close ++ s) = true →
  Re.lazy_until_cell_close (c ++ close ++ s) = Some c.
Proof.
  intros [Hlt Hnl] Hclose. induction c as [|x c IH].
  - simpl app. destruct (close ++ s) as [|y r]; [done|].
    cbn [Re.lazy_until_cell_close]. by rewrite Hclose.
  - apply not_elem_of_cons in Hlt as [Hx1 Hlt].
    apply not_elem_of_cons in Hnl as [Hx2 Hnl].
    cbn [app Re.lazy_until_cell_close].
    assert (Re.is_cell_close (x :: c ++ close ++ s) = false) as ->.
    { destruct (Re.is_cell_close (x :: c ++ close ++ s)) eqn:Hx; [|done].
      by apply is_cell_close_head in Hx. }
    destruct (N.eqb_spec x NL) as [->|_]; [done|].
    by rewrite IH.
Qed.

Lemma is_cell_close_app (header : bool) (r : str) :
  Re.is_cell_close ((if header then py "</th>" else py "</td>") ++ r) = true.
Proof.
  unfold Re.is_cell_close. destruct header; rewrite startswith_app;
    [done|apply orb_true_r].
Qed.

Lemma is_cell_open_app (header : bool) (r : str) :
  Re.is_cell_open ((if header then py "<th>" else py "<td>") ++ r) = true.
Proof.
  unfold Re.is_cell_open. destruct header; rewrite startswith_app;
    [done|apply orb_true_r].
Qed.

Lemma findall_cells_concat (header : bool) (cells : list str) (tail : str) :
  Forall plain cells →
  Re.findall_from 0 (concat (map (cell_html header) cells) ++ tail)
  = cells ++ Re.findall_from 0 tail.
Proof.
  induction cells as [|c cells IH]; intros Hall; [done|].
  apply Forall_cons in Hall as [Hc Hall].
  cbn [map concat]. rewrite <- app_assoc.
  destruct header; unfold cell_html at 1.
  - change (py "<th>" ++ c ++ py "</th>")
      with (60%N :: py "th>" ++ c ++ py "</th>").
    rewrite <- app_comm_cons. cbn [Re.findall_from].
    assert (Re.is_cell_open
              (60%N :: (py "th>" ++ c ++ py "</th>") ++
               concat (map (cell_html true) cells) ++ tail) = true)
      as -> by exact (is_cell_open_app true
                 ((c ++ py "</th>") ++
                  concat (map (cell_html true) cells) ++ tail)).
    change (drop 4 _) with
      ((c ++ py "</th>") ++ concat (map (cell_html true) cells) ++ tail).
    rewrite <- app_assoc, lazy_until_cell_close_plain
      by first [done | apply (is_cell_close_app true)].
    replace (8 + length c) with (length (py "th>" ++ c ++ py "</th>"))
      by (rewrite !length_app; simpl; lia).
    rewrite findall_from_skip, IH by done. done.
  - change (py "<td>" ++ c ++ py "</td>")
      with (60%N :: py "td>" ++ c ++ py "</td>").
    rewrite <- app_comm_cons. cbn [Re.findall_from].
    assert (Re.is_cell_open
              (60%N :: (py "td>" ++ c ++ py "</td>") ++
               concat (map (cell_html false) cells) ++ tail) = true)
      as -> by exact (is_cell_open_app false
                 ((c ++ py "</td>") ++
                  concat (map (cell_html false) cells) ++ tail)).
    change (drop 4 _) with
      ((c ++ py "</td>") ++ concat (map (cell_html false) cells) ++ tail).
    rewrite <- app_assoc, lazy_until_cell_close_plain
      by first [done | apply (is_cell_close_app false)].
    replace (8 + length c) with (length (py "td>" ++ c ++ py "</td>"))
      by (rewrite !length_app; simpl; lia).
    rewrite findall_from_skip, IH by done. done.
Qed.

Lemma row_html_cells_found (header : bool) (cells : list str) :
  Forall plain cells →
  Re.findall_cells (row_html (header, cells)) = cells.
Proof.
  intros Hall. unfold Re.findall_cells, row_html. cbn [fst snd].
  change (ROW_OPEN ++ ?x) with (60%N :: 116%N :: 114%N :: 62%N :: x).
  cbn [Re.findall_from].
  assert (∀ x, Re.is_cell_open (60%N :: 116%N :: 114%N :: 62%N :: x) = false)
    as -> by (intros; vm_compute; reflexivity).
  assert (∀ x, Re.is_cell_open (116%N :: 114%N :: 62%N :: x) = false)
    as -> by (intros; vm_compute; reflexivity).
  assert (∀ x, Re.is_cell_open (114%N :: 62%N :: x) = false)
    as -> by (intros; vm_compute; reflexivity).
  assert (∀ x, Re.is_cell_open (62%N :: x) = false)
    as -> by (intros; vm_compute; reflexivity).
  rewrite findall_cells_concat by done.
  change (Re.findall_from 0 (py "</tr>")) with (@nil (list N)).
  by rewrite app_nil_r.
Qed.

(** X4: the cells of a row written on one line are found again: for
    cells without [<] and without newline, the regular expression of the
    table branch returns exactly the cells, in order. *)
Theorem findall_cells_row_html (header : bool) (cells : list str) :
  Forall plain cells →
  Re.findall_cells (row_html (header, cells)) = cells.
Proof. apply row_html_cells_found. Qed.













End Tables.

(** * The scan as a whole *)

Section Scan.
Local Open Scope nat_scope.







Lemma parse_loop_acc (fuel : nat) (lines : list str) (i : nat)
    (acc : list flowable) :
  parse_loop fuel lines i acc = (app acc) <$> parse_loop fuel lines i [].
Proof.
  revert i acc; induction fuel as [|fuel IH]; intros i acc; simpl.
  - destruct (lines !! i); simpl; by rewrite ?app_nil_r.
  - destruct (lines !! i) as [raw|]; simpl; [|by rewrite app_nil_r].
    destruct (loop_body lines i raw) as [new j].
    rewrite (IH j (acc ++ new)), (IH j new). simpl.
    destruct (parse_loop fuel lines j []); simpl; [|done].
    by rewrite app_assoc.
Qed.














(** The scan with the exception of the constructor, from the scan
    without it: the elements are the same, and the exception is raised
    exactly when a constructor refuses one of them. *)
Lemma parse_loop_raising_pure (pp : str → bool) (fuel : nat)
    (lines : list str) (i : nat) (acc : list flowable) :
  length lines ≤ i + fuel →
  parse_loop_raising pp fuel lines i acc
  = (λ elements,
       if forallb (builds pp) elements then Returned (acc ++ elements)
       else ValueError) <$> parse_loop fuel lines i [].
Proof.
  revert i acc; induction fuel as [|fuel IH]; intros i acc Hlen.
  - rewrite parse_loop_raising_end, parse_loop_end by lia.
    simpl. by rewrite app_nil_r.
  - destruct (lines !! i) as [raw|] eqn:Hi.
    + rewrite (parse_loop_raising_step _ _ _ _ raw),
        (parse_loop_step _ _ _ raw) by done.
      pose proof (loop_body_index lines i raw) as Hlt.
      destruct (loop_body lines i raw) as [new j]. simpl in *.
      rewrite (parse_loop_acc fuel lines j new).
      destruct (parse_loop_returns fuel lines j []) as [more Hmore]; [lia|].
      rewrite IH, Hmore by lia. simpl.
      rewrite forallb_app.
      destruct (forallb (builds pp) new); simpl; [|done].
      by rewrite app_assoc.
    + simpl. rewrite Hi. simpl. by rewrite app_nil_r.
Qed.

Lemma parse_lines_raising_pure (pp : str → bool) (lines : list str) :
  parse_lines_raising pp lines
  = (λ elements,
       if forallb (builds pp) elements then Returned elements
       else ValueError) <$> parse_lines lines.
Proof.
  unfold parse_lines_raising, parse_lines.
  by rewrite parse_loop_raising_pure by lia.
Qed.

End Scan.

(** * Lines that hold one element *)

Section Elements.
Local Open Scope nat_scope.




Lemma element_html_angle (name text : str) :
  element_html name text
  = LT :: (name ++ [GT] ++ text ++ LT :: 47%N :: name) ++ [GT].
Proof.
  unfold element_html, tag. simpl. f_equal.
  rewrite <- !app_assoc. simpl. f_equal. f_equal.
  rewrite <- !app_assoc. done.
Qed.

Lemma strip_element_html (name text : str) :
  strip (element_html name text) = element_html name text.
Proof.
  rewrite element_html_angle.
  rewrite <- (app_nil_r (LT :: _ ++ [GT])) at 1.
  rewrite (strip_marker_app _ _ LT GT _ eq_refl) by done.
  by rewrite app_nil_r.
Qed.















End Elements.

(** * More on the batch drivers *)

Section Batch.
Context `{Platform}.
Local Open Scope nat_scope.

Lemma convert_A_line (f : str) (o : option str) (w : World) :
  ∃ m, (PipelineA.convert_markdown_to_pdf f o w).1.2 = [m] ∧
       subject m = Some f.
Proof.
  unfold PipelineA.convert_markdown_to_pdf.
  destruct (open_read w f); [|by eexists|by eexists].
  destruct (write_pdf _ _ _ _) as [[] ?]; by eexists.
Qed.

Lemma convert_B_line (f : str) (o : option str) (w : World) :
  ∃ m, (PipelineB.convert_markdown_to_pdf f o w).1.2 = [m] ∧
       subject m = Some f.
Proof.
  unfold PipelineB.convert_markdown_to_pdf.
  destruct (open_read w f); [|by eexists|by eexists].
  destruct (PipelineB.parse_markdown_to_elements _ _ _) as [[elements|]|];
    [|by eexists|by eexists].
  destruct (doc_build _ _ _) as [[] ?]; by eexists.
Qed.

Lemma omap_subject_cons (m : message) (f : str) (pr : list message) :
  subject m = Some f → omap subject (m :: pr) = f :: omap subject pr.
Proof. simpl. by intros ->. Qed.

Lemma for_files_A_lines (files : list str) (o : option str) (n : nat)
    (out : list message) (w : World) :
  ∃ printed,
    (PipelineA.for_files files o n out w).1.2 = out ++ printed ∧
    (PipelineA.for_files files o n out w).1.1 = n + successes printed ∧
    omap subject printed = files ∧ length printed = length files.
Proof.
  revert n out w; induction files as [|f files IH]; intros n out w; simpl.
  - exists []. by rewrite app_nil_r, Nat.add_0_r.
  - destruct (negb (os_path_exists w f)).
    { destruct (IH n (out ++ [MsgMissing f]) w) as (pr & -> & -> & Hs & Hl).
      exists (MsgMissing f :: pr).
      rewrite <- app_assoc, (omap_subject_cons _ f), Hs by done.
      simpl. by rewrite Hl. }
    destruct (negb (markdown_name f)).
    { destruct (IH n (out ++ [MsgNotMarkdown f]) w)
        as (pr & -> & -> & Hs & Hl).
      exists (MsgNotMarkdown f :: pr).
      rewrite <- app_assoc, (omap_subject_cons _ f), Hs by done.
      simpl. by rewrite Hl. }
    pose proof (convert_A_successes f
      (if output_truthy o then o else None) w) as Hc.
    destruct (convert_A_line f (if output_truthy o then o else None) w)
      as (m & Hm & Hsub).
    destruct (PipelineA.convert_markdown_to_pdf _ _ _) as [[ok pr1] w'].
    simpl in Hc, Hm. subst pr1.
    destruct (IH (if ok then S n else n) (out ++ [m]) w')
      as (pr & -> & -> & Hs & Hl).
    exists (m :: pr).
    rewrite <- app_assoc, (omap_subject_cons _ f), Hs by done.
    simpl in *. rewrite Hl. repeat split; try done.
    destruct ok; lia.
Qed.

Lemma for_files_B_lines (files : list str) (o : option str) (n : nat)
    (out : list message) (w : World) :
  ∃ printed,
    (PipelineB.for_files files o n out w).1.2 = out ++ printed ∧
    (PipelineB.for_files files o n out w).1.1 = n + successes printed ∧
    omap subject printed = files ∧ length printed = length files.
Proof.
  revert n out w; induction files as [|f files IH]; intros n out w; simpl.
  - exists []. by rewrite app_nil_r, Nat.add_0_r.
  - destruct (negb (os_path_exists w f)).
    { destruct (IH n (out ++ [MsgMissing f]) w) as (pr & -> & -> & Hs & Hl).
      exists (MsgMissing f :: pr).
      rewrite <- app_assoc, (omap_subject_cons _ f), Hs by done.
      simpl. by rewrite Hl. }
    destruct (negb (markdown_name f)).
    { destruct (IH n (out ++ [MsgNotMarkdown f]) w)
        as (pr & -> & -> & Hs & Hl).
      exists (MsgNotMarkdown f :: pr).
      rewrite <- app_assoc, (omap_subject_cons _ f), Hs by done.
      simpl. by rewrite Hl. }
    pose proof (convert_B_successes f
      (if output_truthy o then o else None) w) as Hc.
    destruct (convert_B_line f (if output_truthy o then o else None) w)
      as (m & Hm & Hsub).
    destruct (PipelineB.convert_markdown_to_pdf _ _ _) as [[ok pr1] w'].
    simpl in Hc, Hm. subst pr1.
    destruct (IH (if ok then S n else n) (out ++ [m]) w')
      as (pr & -> & -> & Hs & Hl).
    exists (m :: pr).
    rewrite <- app_assoc, (omap_subject_cons _ f), Hs by done.
    simpl in *. rewrite Hl. repeat split; try done.
    destruct ok; lia.
Qed.

Lemma main_A_lines (args : Args) (w : World) :
  conflict args = false →
  ∃ printed,
    stdout (PipelineA.main args w)
    = printed ++ [MsgSummary (successes printed) (length (input_files args))] ∧
    omap subject printed = input_files args ∧
    length printed = length (input_files args).
Proof.
  intros Hc. unfold PipelineA.main. fold (conflict args). rewrite Hc.
  pose proof (for_files_A_lines (input_files args) (output args) 0 [] w)
    as (printed & Hout & Hn & Hs & Hl).
  destruct (PipelineA.for_files _ _ _ _ _) as [[n out] w'].
  simpl in Hout, Hn. subst out n.
  exists printed. by destruct (successes printed =? 0).
Qed.

Lemma main_B_lines (args : Args) (w : World) :
  conflict args = false →
  ∃ printed,
    stdout (PipelineB.main args w)
    = printed ++ [MsgSummary (successes printed) (length (input_files args))] ∧
    omap subject printed = input_files args ∧
    length printed = length (input_files args).
Proof.
  intros Hc. unfold PipelineB.main. fold (conflict args). rewrite Hc.
  pose proof (for_files_B_lines (input_files args) (output args) 0 [] w)
    as (printed & Hout & Hn & Hs & Hl).
  destruct (PipelineB.for_files _ _ _ _ _) as [[n out] w'].
  simpl in Hout, Hn. subst out n.
  exists printed. by destruct (successes printed =? 0).
Qed.

Lemma omap_subject_summary (printed : list message) (x y : nat) :
  omap subject (printed ++ [MsgSummary x y]) = omap subject printed.
Proof. rewrite omap_app. simpl. by rewrite app_nil_r. Qed.

(** X14: every input file is accounted for.  In a run that passes the
    test on [--output], what each script prints is one line about each
    input file (a warning, an error or a success), in the order of the
    command line, whatever happens to the files before it, and then, as
    the last line, the summary: the number of success lines before it
    over the number of input files. *)
Theorem one_line_per_file (args : Args) (w : World) :
  conflict args = false →
  (∃ printed,
      stdout (PipelineA.main args w)
      = printed
        ++ [MsgSummary (successes printed) (length (input_files args))] ∧
      omap subject printed = input_files args ∧
      length printed = length (input_files args)) ∧
  (∃ printed,
      stdout (PipelineB.main args w)
      = printed
        ++ [MsgSummary (successes printed) (length (input_files args))] ∧
      omap subject printed = input_files args ∧
      length printed = length (input_files args)).
Proof.
  intros Hc. split.
  - by apply main_A_lines.
  - by apply main_B_lines.
Qed.

Lemma successes_le (out : list message) : successes out ≤ length out.
Proof.
  induction out as [|m out IH]; simpl; [done|].
  destruct (is_converted m); lia.
Qed.

(** X15: in the summary [X/Y] of a run that passes the test on
    [--output], [Y] is the number of lines printed before it, one per
    input file, [X] is the number of success lines among them, and so
    [X] is at most [Y]. *)
Theorem summary_counts (args : Args) (w : World) :
  conflict args = false →
  (∃ printed,
      stdout (PipelineA.main args w)
      = printed ++ [MsgSummary (successes printed) (length printed)] ∧
      successes printed ≤ length printed ∧
      length printed = length (input_files args)) ∧
  (∃ printed,
      stdout (PipelineB.main args w)
      = printed ++ [MsgSummary (successes printed) (length printed)] ∧
      successes printed ≤ length printed ∧
      length printed = length (input_files args)).
Proof.
  intros Hc. split.
  - destruct (main_A_lines args w Hc) as (pa & -> & _ & Hla).
    exists pa. rewrite Hla. split; [done|]. split; [|done].
    rewrite <- Hla. apply successes_le.
  - destruct (main_B_lines args w Hc) as (pb & -> & _ & Hlb).
    exists pb. rewrite Hlb. split; [done|]. split; [|done].
    rewrite <- Hlb. apply successes_le.
Qed.

Lemma for_files_A_all_skipped (files : list str) (o : option str) (n : nat)
    (out : list message) (w : World) :
  Forall (λ f, skipped w f = true) files →
  PipelineA.for_files files o n out w
  = (n, out ++ map (warning w) files, w).
Proof.
  revert out; induction files as [|f files IH]; intros out Hall; simpl.
  - by rewrite app_nil_r.
  - apply Forall_cons in Hall as [Hf Hall]. unfold skipped in Hf.
    unfold warning at 1.
    destruct (negb (os_path_exists w f)).
    + rewrite IH by done. by rewrite <- app_assoc.
    + simpl in Hf. rewrite Hf, IH by done. by rewrite <- app_assoc.
Qed.

Lemma for_files_B_all_skipped (files : list str) (o : option str) (n : nat)
    (out : list message) (w : World) :
  Forall (λ f, skipped w f = true) files →
  PipelineB.for_files files o n out w
  = (n, out ++ map (warning w) files, w).
Proof.
  revert out; induction files as [|f files IH]; intros out Hall; simpl.
  - by rewrite app_nil_r.
  - apply Forall_cons in Hall as [Hf Hall]. unfold skipped in Hf.
    unfold warning at 1.
    destruct (negb (os_path_exists w f)).
    + rewrite IH by done. by rewrite <- app_assoc.
    + simpl in Hf. rewrite Hf, IH by done. by rewrite <- app_assoc.
Qed.

(** X16: when the pre-check skips every input file, nothing is read or
    written: each script prints one warning per file, in order (the
    missing-file warning when the path does not exist, else the
    extension warning), then the summary [0/Y], exits with status 1 and
    leaves the world as it was; the two scripts behave alike. *)
Theorem all_files_skipped (args : Args) (w : World) :
  conflict args = false →
  Forall (λ f, skipped w f = true) (input_files args) →
  PipelineA.main args w
  = {| stdout := map (warning w) (input_files args)
                 ++ [MsgSummary 0 (length (input_files args))];
       exit_code := 1; world := w |} ∧
  PipelineB.main args w = PipelineA.main args w.
Proof.
  intros Hc Hall.
  unfold PipelineA.main, PipelineB.main. fold (conflict args). rewrite Hc.
  by rewrite for_files_A_all_skipped, for_files_B_all_skipped.
Qed.

Lemma for_files_A_empty_output (files : list str) (n : nat)
    (out : list message) (w : World) :
  PipelineA.for_files files (Some []) n out w
  = PipelineA.for_files files None n out w.
Proof.
  revert n out w; induction files as [|f files IH]; intros n out w; simpl;
    [done|].
  destruct (negb (os_path_exists w f)); [apply IH|].
  destruct (negb (markdown_name f)); [apply IH|].
  destruct (PipelineA.convert_markdown_to_pdf f None w) as [[ok pr] w'].
  apply IH.
Qed.

Lemma for_files_B_empty_output (files : list str) (n : nat)
    (out : list message) (w : World) :
  PipelineB.for_files files (Some []) n out w
  = PipelineB.for_files files None n out w.
Proof.
  revert n out w; induction files as [|f files IH]; intros n out w; simpl;
    [done|].
  destruct (negb (os_path_exists w f)); [apply IH|].
  destruct (negb (markdown_name f)); [apply IH|].
  destruct (PipelineB.convert_markdown_to_pdf f None w) as [[ok pr] w'].
  apply IH.
Qed.

(** X17: an empty [--output] value is no value: each script does the same
    with [--output ''] as without the option, for any number of input
    files. *)
Theorem empty_output_is_none (files : list str) (w : World) :
  PipelineA.main {| input_files := files; output := Some [] |} w
  = PipelineA.main {| input_files := files; output := None |} w ∧
  PipelineB.main {| input_files := files; output := Some [] |} w
  = PipelineB.main {| input_files := files; output := None |} w.
Proof.
  unfold PipelineA.main, PipelineB.main. simpl.
  rewrite !andb_false_r.
  by rewrite for_files_A_empty_output, for_files_B_empty_output.
Qed.

(** X18: in Pipeline B a conversion whose input file is read is decided
    by the [Paragraph] constructors and the layout call.  The scan of the
    HTML lines itself always arrives at its elements.  When a constructor
    refuses the text of one of them, the conversion prints its error
    line and returns [False]; the layout call is not made and the world
    is left as it was.  Otherwise the layout call is made with the
    elements on the output path ([--output], or the input path with the
    suffix [.pdf]), and the result of the conversion is the result of
    that call: success with its success line, or failure with its error
    line. *)
Theorem convert_B_decided_by_layout (f : str) (o : option str) (w : World)
    (markdown_content : str) :
  open_read w f = ReadOk markdown_content →
  ∃ elements,
    parse_lines (split NL (markdown2_markdown markdown_content))
    = Some elements ∧
    PipelineB.convert_markdown_to_pdf f
      (if output_truthy o then o else None) w
    = (if forallb (builds paragraph_parses) elements then
         let out := output_path o f in
         let '(ok, w') := doc_build out elements w in
         if ok then (true, [MsgConverted f out], w')
         else (false, [MsgConvertError f], w')
       else (false, [MsgConvertError f], w)).
Proof.
  intros Hread.
  destruct (parse_loop_returns
              (length (split NL (markdown2_markdown markdown_content)))
              (split NL (markdown2_markdown markdown_content)) 0 [])
    as [elements Hel]; [lia|].
  exists elements. split; [done|].
  unfold PipelineB.convert_markdown_to_pdf. rewrite Hread.
  unfold parse_markdown_to_elements.
  rewrite parse_lines_raising_pure. unfold parse_lines. rewrite Hel. simpl.
  destruct (forallb (builds paragraph_parses) elements); [|done].
  by destruct o as [[|c o']|].
Qed.

End Batch.

(** * The style sheet *)

Section StyleSheet.
Local Open Scope nat_scope.






(** X20: the heading styles shrink with the level.  The style the
    transducer looks up for a heading of level [n] is the one the loop of
    [setup_custom_styles] adds for [i = n]: derived from [Heading1], font
    size [20 - 2n], space after and before [18 - 2n]; so both sizes are
    positive and strictly smaller at every deeper level. *)
Theorem heading_styles_shrink :
  (∀ n, 1 ≤ n ≤ 6 →
     Styles.added_style (style_key (CustomHeading n))
     = Some (Styles.custom_heading n) ∧
     Styles.parent (Styles.custom_heading n) = py "Heading1" ∧
     Styles.fontSize (Styles.custom_heading n) = (20 - 2 * Z.of_nat n)%Z ∧
     Styles.spaceAfter (Styles.custom_heading n) = (18 - 2 * Z.of_nat n)%Z ∧
     Styles.spaceBefore (Styles.custom_heading n)
     = Some (Styles.spaceAfter (Styles.custom_heading n))) ∧
  (∀ j k, 1 ≤ k → k < j → j ≤ 6 →
     (0 < Styles.fontSize (Styles.custom_heading j)
      < Styles.fontSize (Styles.custom_heading k))%Z ∧
     (0 < Styles.spaceAfter (Styles.custom_heading j)
      < Styles.spaceAfter (Styles.custom_heading k))%Z).
Proof.
  split.
  - intros n Hn. split.
    + destruct n as [|[|[|[|[|[|[|n]]]]]]]; try lia; vm_compute; reflexivity.
    + unfold Styles.custom_heading. simpl. repeat split; lia.
  - intros j k Hk Hkj Hj. unfold Styles.custom_heading. simpl. lia.
Qed.

End StyleSheet.

(** * Text lines *)

Section TextLines.
Local Open Scope nat_scope.















End TextLines.

(** * The further theorems at concrete inputs *)

Section MoreInstances.
Local Open Scope nat_scope.

Ltac decided := apply (bool_decide_unpack _); vm_compute; exact I.

(** Text, a tag, and text with an unclosed [<]. *)
Lemma clean_html_tags_plain_then_tag_witness :
  clean_html_tags (py "a " ++ tag (py "b") ++ py "c < d")
  = py "a " ++ clean_html_tags (py "c < d").
Proof.
  refine (proj1 (clean_html_tags_plain_then_tag (py "a ") (py "b")
                   (py "c < d") _ _)).
  - decided.
  - split; decided.
Defined.

Lemma findall_cells_row_html_witness :
  Re.findall_cells (row_html (true, [py "Name"; py "Age"]))
  = [py "Name"; py "Age"].
Proof.
  apply (findall_cells_row_html true [py "Name"; py "Age"]).
  repeat constructor; decided.
Defined.








Lemma one_line_per_file_witness :
  ∃ printed,
    stdout (PipelineA.main (H := ToyHost.toy)
      {| input_files := ToyHost.some_files; output := None |}
      ToyHost.some_files)
    = printed ++ [MsgSummary (successes printed) 3] ∧
    omap subject printed = ToyHost.some_files ∧
    length printed = 3.
Proof.
  refine (proj1 (one_line_per_file (H := ToyHost.toy)
    {| input_files := ToyHost.some_files; output := None |}
    ToyHost.some_files _)).
  reflexivity.
Defined.

Lemma summary_counts_witness :
  ∃ printed,
    stdout (PipelineB.main (H := ToyHost.toy)
      {| input_files := ToyHost.some_files; output := None |}
      ToyHost.some_files)
    = printed ++ [MsgSummary (successes printed) (length printed)] ∧
    successes printed ≤ length printed ∧
    length printed = 3.
Proof.
  refine (proj2 (summary_counts (H := ToyHost.toy)
    {| input_files := ToyHost.some_files; output := None |}
    ToyHost.some_files _)).
  reflexivity.
Defined.

(** A missing file and a text file. *)
Lemma all_files_skipped_witness :
  PipelineA.main (H := ToyHost.toy)
    {| input_files := [py "gone.md"; py "notes.txt"]; output := None |}
    [py "notes.txt"]
  = @Build_Outcome ToyHost.toy
      [MsgMissing (py "gone.md"); MsgNotMarkdown (py "notes.txt");
       MsgSummary 0 2]
      1 [py "notes.txt"].
Proof.
  refine (proj1 (all_files_skipped (H := ToyHost.toy)
    {| input_files := [py "gone.md"; py "notes.txt"]; output := None |}
    [py "notes.txt"] _ _)).
  - reflexivity.
  - repeat constructor.
Defined.

Lemma convert_B_decided_by_layout_witness :
  ∃ elements,
    parse_lines (split NL (@markdown2_markdown ToyHost.toy [])) = Some elements ∧
    PipelineB.convert_markdown_to_pdf (H := ToyHost.toy) (py "a.md")
      None [py "a.md"]
    = (if forallb (builds (@paragraph_parses ToyHost.toy)) elements then
         let out := output_path (H := ToyHost.toy) None (py "a.md") in
         let '(ok, w') :=
           @doc_build ToyHost.toy out elements [py "a.md"] in
         if ok then (true, [MsgConverted (py "a.md") out], w')
         else (false, [MsgConvertError (py "a.md")], w')
       else (false, [MsgConvertError (py "a.md")], [py "a.md"])).
Proof.
  apply (convert_B_decided_by_layout (H := ToyHost.toy) (py "a.md") None
           [py "a.md"] []).
  reflexivity.
Defined.

Lemma heading_styles_shrink_witness :
  Styles.added_style (style_key (CustomHeading 2))
  = Some (Styles.custom_heading 2) ∧
  (Styles.fontSize (Styles.custom_heading 6)
   < Styles.fontSize (Styles.custom_heading 5))%Z.
Proof.
  split.
  - refine (proj1 (proj1 heading_styles_shrink 2 _)). lia.
  - refine (proj2 (proj1 (proj2 heading_styles_shrink 6 5 _ _ _))); lia.
Defined.


(** A file whose HTML is the paragraph [x <b] / [y]: the first script
    converts it, the second one fails on the constructor, before the
    layout call, and exits with status 1. *)
Example convert_B_value_error :
  PipelineB.convert_markdown_to_pdf
    (H := ToyHost.reading (join [NL] [py "<p>x <b"; py "y</p>"]))
    (py "a.md") None [py "a.md"]
  = (false, [MsgConvertError (py "a.md")], [py "a.md"]) ∧
  PipelineA.convert_markdown_to_pdf
    (H := ToyHost.reading (join [NL] [py "<p>x <b"; py "y</p>"]))
    (py "a.md") None [py "a.md"]
  = (true, [MsgConverted (py "a.md") (py "a.pdf")], [py "a.pdf"; py "a.md"]) ∧
  PipelineB.main
    (H := ToyHost.reading (join [NL] [py "<p>x <b"; py "y</p>"]))
    {| input_files := [py "a.md"]; output := None |} [py "a.md"]
  = @Build_Outcome (ToyHost.reading (join [NL] [py "<p>x <b"; py "y</p>"]))
      [MsgConvertError (py "a.md"); MsgSummary 0 1] 1 [py "a.md"].
Proof. repeat split. Qed.

End MoreInstances.
